(** * TextMetricsHelper: a shallow embedding of [TextMetricsHelper.js]

    The class reads an element's computed style, measures a reference text
    on an off-screen canvas and derives line-height figures from the
    measurement.  The embedding keeps the shape of the source:

    - JavaScript numbers are IEEE 754 binary64 values: Rocq's primitive
      [float], whose operations are the ones of the source ([+], [*], [/]).
    - A property that may be missing from [TextMetrics] is a [value]:
      [VUndefined] or a number.
    - The browser (computed styles, the canvas measurement) is an explicit
      environment [Browser]; what a method does to the outside (reads of
      the computed style, canvas calls, [console.warn]) is appended to a
      trace of [event]s; [throw] ends a computation with an exception. *)

From Stdlib Require Import ZArith Lia List String Ascii Bool Floats.
Import ListNotations.

Local Open Scope string_scope.
Local Open Scope float_scope.

(** A decimal literal of the source ([1.1]) denotes the nearest binary64
    value, in JavaScript as in Rocq. *)
Set Warnings "-inexact-float".

(** ** JavaScript values and numbers *)

Module JS.

(** The values the helper's arithmetic meets: a property of [TextMetrics]
    is a number, or [undefined] where the browser does not implement it. *)
Inductive value : Type :=
| VUndefined
| VNumber (x : float).

(** [ToNumber]: [undefined] becomes [NaN]. *)
Definition ToNumber (v : value) : float :=
  match v with
  | VUndefined => nan
  | VNumber x => x
  end.

(** [v === undefined]. *)
Definition is_undefined (v : value) : bool :=
  match v with
  | VUndefined => true
  | VNumber _ => false
  end.

(** [a + b] on values that are numbers or [undefined] (no string, no
    object): both operands go through [ToNumber]. *)
Definition add (a b : value) : float := ToNumber a + ToNumber b.

(** [a === b] on numbers: IEEE equality ([NaN] differs from itself,
    [+0 === -0]). *)
Definition strict_eq (a b : float) : bool := PrimFloat.eqb a b.

End JS.

Import JS.

(** ** [parseFloat]

    The source calls the built-in [parseFloat] on the computed [font-size]
    and [line-height] strings.  It is embedded as ECMAScript defines it:
    leading white space is skipped, the longest prefix that is a
    [StrDecimalLiteral] is read, and its mathematical value is rounded to
    the nearest binary64 (ties to even); with no such prefix the result is
    [NaN].  Strings are sequences of bytes; of the white-space characters
    only the ASCII ones are recognised. *)

Module ParseFloat.

Local Open Scope Z_scope.

Definition is_white_space (c : ascii) : bool :=
  let n := Z.of_N (N_of_ascii c) in
  ((9 <=? n) && (n <=? 13)) || (n =? 32).

Fixpoint trim_start (s : string) : string :=
  match s with
  | String c rest => if is_white_space c then trim_start rest else s
  | EmptyString => s
  end.

Definition digit_of (c : ascii) : option Z :=
  let n := Z.of_N (N_of_ascii c) in
  if (48 <=? n) && (n <=? 57) then Some (n - 48) else None.

(** [DecimalDigits]: the value read so far, the number of digits read,
    and what follows them. *)
Fixpoint read_digits (s : string) (acc count : Z) : Z * Z * string :=
  match s with
  | String c rest =>
      match digit_of c with
      | Some d => read_digits rest (10 * acc + d) (count + 1)
      | None => (acc, count, s)
      end
  | EmptyString => (acc, count, s)
  end.

(** [ExponentPart], when one follows: [e] or [E], an optional sign and at
    least one digit.  Otherwise the exponent is 0 and nothing is read. *)
Definition read_exponent (s : string) : Z :=
  match s with
  | String c rest =>
      if (Ascii.eqb c "e" || Ascii.eqb c "E")%bool then
        let (neg, rest') :=
          match rest with
          | String "+" r => (false, r)
          | String "-" r => (true, r)
          | _ => (false, rest)
          end in
        let '(v, n, _) := read_digits rest' 0 0 in
        if n =? 0 then 0 else if neg then - v else v
      else 0
  | EmptyString => 0
  end.

(** The binary64 nearest to [m * 10 ^ e], for [0 <= m]. *)
Definition round_decimal (neg : bool) (m e : Z) : spec_float :=
  match m with
  | Z0 => S754_zero neg
  | Zpos _ =>
      if 0 <=? e then
        binary_normalize prec emax (cond_Zopp neg (m * 10 ^ e)) 0 false
      else
        let '(q, e', l) := SFdiv_core_binary prec emax m 0 (10 ^ (- e)) 0 in
        binary_round_aux prec emax neg q e' l
  | Zneg _ => S754_nan
  end.

Definition starts_with_Infinity (s : string) : bool :=
  String.eqb (substring 0 8 s) "Infinity".

(** [StrUnsignedDecimalLiteral], the longest prefix of [s]. *)
Definition unsigned_literal (neg : bool) (s : string) : spec_float :=
  if starts_with_Infinity s then S754_infinity neg
  else
    let '(int, ni, after_int) := read_digits s 0 0 in
    match after_int with
    | String "." after_dot =>
        let '(m, nf, after_frac) := read_digits after_dot int 0 in
        if (ni =? 0) && (nf =? 0) then S754_nan
        else round_decimal neg m (read_exponent after_frac - nf)
    | _ =>
        if ni =? 0 then S754_nan
        else round_decimal neg int (read_exponent after_int)
    end.

Definition parse (s : string) : spec_float :=
  match trim_start s with
  | String "+" rest => unsigned_literal false rest
  | String "-" rest => unsigned_literal true rest
  | t => unsigned_literal false t
  end.

End ParseFloat.

Definition parseFloat (s : string) : float := SF2Prim (ParseFloat.parse s).

(** ** Lengths in pixels

    A computed length is written as decimal digits, possibly a point and
    more digits, and the unit: [57.6px]. *)

Module CSS.

Local Open Scope Z_scope.

Definition is_digit (d : Z) : Prop := 0 <= d <= 9.

Definition digit_char (d : Z) : ascii := ascii_of_N (Z.to_N (48 + d)).

Fixpoint digits_string (ds : list Z) : string :=
  match ds with
  | [] => EmptyString
  | d :: rest => String (digit_char d) (digits_string rest)
  end.

Definition digits_value (ds : list Z) (acc : Z) : Z :=
  fold_left (fun a d => 10 * a + d) ds acc.

(** The string for the digits [int] before the point and [frac] after it. *)
Definition px_string (int frac : list Z) : string :=
  digits_string int
  ++ match frac with
     | [] => "px"
     | _ => String "." (digits_string frac ++ "px")
     end.

(** The number of pixels it denotes: the binary64 nearest to the decimal. *)
Definition pixels (int frac : list Z) : float :=
  SF2Prim (ParseFloat.round_decimal false (digits_value (int ++ frac) 0)
                                    (- Z.of_nat (List.length frac))).

(** Split a digit into its ten cases. *)
Ltac each_digit d H :=
  unfold is_digit in H;
  assert (d = 0 \/ d = 1 \/ d = 2 \/ d = 3 \/ d = 4 \/ d = 5 \/ d = 6 \/ d = 7
          \/ d = 8 \/ d = 9) as Hcases by lia;
  clear H; repeat (destruct Hcases as [-> | Hcases]); [ .. | subst d ].

End CSS.

(** ** The browser *)

(** A DOM element is named by a node identifier; the constructor's argument
    is an element, [null] or [undefined]. *)
Definition node := nat.

Inductive target : Type :=
| TNull
| TUndefined
| TElement (el : node).

(** The properties of [CSSStyleDeclaration] that the helper reads.  Computed
    values are strings: lengths in pixels ([48px]), or the keyword
    [normal] for [line-height]. *)
Record CSSStyleDeclaration : Type := {
  style_fontSize : string;
  style_fontFamily : string;
  style_fontWeight : string;
  style_fontStyle : string;
  style_lineHeight : string
}.

(** The value assigned to [ctx.font], the template
    [`${fontStyle} ${fontWeight} ${fontSize}px ${fontFamily}`], kept as its
    four parts instead of the formatted string. *)
Record CanvasFont : Type := {
  font_style : string;
  font_weight : string;
  font_size : float;
  font_family : string
}.

(** [TextMetrics], as far as the helper looks at it. *)
Record TextMetrics : Type := {
  actualBoundingBoxAscent : value;
  actualBoundingBoxDescent : value
}.

(** What the page and the rendering engine answer at one moment:
    [window.getComputedStyle] and the canvas measurement. *)
Record Browser : Type := {
  computedStyle : node -> CSSStyleDeclaration;
  canvasMeasure : CanvasFont -> string -> TextMetrics
}.

(** What a computation does to the outside, in order. *)
Inductive event : Type :=
| GetComputedStyle (el : node)
| CreateCanvas
| GetContext2d
| SetFont (f : CanvasFont)
| MeasureText (f : CanvasFont) (text : string)
| ConsoleWarn (message : string).

Inductive exn : Type :=
| Error (message : string).

Inductive outcome (A : Type) : Type :=
| Return (a : A)
| Throw (e : exn).

Arguments Return {A} a.
Arguments Throw {A} e.

(** A computation runs in a browser and extends the trace of events. *)
Definition M (A : Type) : Type := Browser -> list event -> outcome A * list event.

Definition ret {A} (a : A) : M A := fun _ tr => (Return a, tr).

Definition throw {A} (e : exn) : M A := fun _ tr => (Throw e, tr).

Definition bind {A B} (c : M A) (k : A -> M B) : M B :=
  fun w tr =>
    match c w tr with
    | (Return a, tr') => k a w tr'
    | (Throw e, tr') => (Throw e, tr')
    end.

Definition emit (ev : event) : M unit := fun _ tr => (Return tt, (tr ++ [ev])%list).

Definition ask : M Browser := fun w tr => (Return w, tr).

Notation "x <- c ;; k" := (bind c (fun x => k))
  (at level 61, c at next level, right associativity).
Notation "c ;;; k" := (bind c (fun _ => k))
  (at level 61, right associativity).

Module window.
Definition getComputedStyle (el : node) : M CSSStyleDeclaration :=
  emit (GetComputedStyle el) ;;;
  w <- ask ;;
  ret (computedStyle w el).
End window.

Module console.
Definition warn (message : string) : M unit := emit (ConsoleWarn message).
End console.

(** [document.createElement("canvas")], [canvas.getContext("2d")], the
    assignment to [ctx.font] and [ctx.measureText]. *)
Record CanvasRenderingContext2D : Type := { font : CanvasFont }.

Module canvas.
Definition create : M unit := emit CreateCanvas.
Definition getContext : M unit := emit GetContext2d.
Definition setFont (f : CanvasFont) : M CanvasRenderingContext2D :=
  emit (SetFont f) ;;; ret {| font := f |}.
Definition measureText (ctx : CanvasRenderingContext2D) (text : string) : M TextMetrics :=
  emit (MeasureText (font ctx) text) ;;;
  w <- ask ;;
  ret (canvasMeasure w (font ctx) text).
End canvas.

(** ** The class *)

Record TextMetricsHelper : Type := {
  element : node;
  referenceText : string;
  fontSize : float;
  fontFamily : string;
  fontWeight : string;
  fontStyle : string;
  ctx : CanvasRenderingContext2D;
  metrics : TextMetrics
}.

Definition default_referenceText : string := "ÄyG|?".

Definition no_element_message : string := "TextMetricsHelper: no element provided.".

(** [new TextMetricsHelper(element, referenceText = "ÄyG|?")]; an argument
    left out is [None]. *)
Definition constructor (element : target) (referenceText : option string)
  : M TextMetricsHelper :=
  let referenceText :=
    match referenceText with
    | Some t => t
    | None => default_referenceText
    end in
  match element with
  | TNull | TUndefined => throw (Error no_element_message)
  | TElement el =>
      style <- window.getComputedStyle el ;;
      let fontSize := parseFloat (style_fontSize style) in
      let fontFamily := style_fontFamily style in
      let fontWeight := style_fontWeight style in
      let fontStyle := style_fontStyle style in
      canvas.create ;;;
      canvas.getContext ;;;
      ctx <- canvas.setFont
               {| font_style := fontStyle; font_weight := fontWeight;
                  font_size := fontSize; font_family := fontFamily |} ;;
      metrics <- canvas.measureText ctx referenceText ;;
      ret {| element := el; referenceText := referenceText;
             fontSize := fontSize; fontFamily := fontFamily;
             fontWeight := fontWeight; fontStyle := fontStyle;
             ctx := ctx; metrics := metrics |}
  end.

Definition fallback_message : string :=
  "actualBoundingBoxAscent/Descent not supported. Fallback = 1.0".

Definition getMinLineHeight (this : TextMetricsHelper) : M float :=
  if is_undefined (actualBoundingBoxAscent (metrics this))
     || is_undefined (actualBoundingBoxDescent (metrics this))
  then
    console.warn fallback_message ;;;
    ret 1
  else
    ret (JS.add (actualBoundingBoxAscent (metrics this))
                (actualBoundingBoxDescent (metrics this))
         / fontSize this).

Definition estimateNormalLineHeight (this : TextMetricsHelper) : M float :=
  let ascent := actualBoundingBoxAscent (metrics this) in
  let descent := actualBoundingBoxDescent (metrics this) in
  let visual := JS.add ascent descent in
  ret ((visual / fontSize this) * 1.1).

Definition getElementLineHeight (this : TextMetricsHelper) : M float :=
  style <- window.getComputedStyle (element this) ;;
  if String.eqb (style_lineHeight style) "normal" then
    estimateNormalLineHeight this
  else
    ret (parseFloat (style_lineHeight style) / fontSize this).

(** [getHeightForLines(lineCount = 1, lineHeight = this.getElementLineHeight())]:
    a default applies when the argument is left out, and the second default
    is evaluated only then. *)
Definition getHeightForLines (this : TextMetricsHelper)
    (lineCount lineHeight : option float) : M float :=
  let lineCount := match lineCount with Some n => n | None => 1 end in
  lineHeight <- match lineHeight with
                | Some lh => ret lh
                | None => getElementLineHeight this
                end ;;
  ret (lineHeight * fontSize this * lineCount).

Definition getMinHeightForLines (this : TextMetricsHelper)
    (lineCount : option float) : M float :=
  let lineCount := match lineCount with Some n => n | None => 1 end in
  minLH <- getMinLineHeight this ;;
  getHeightForLines this (Some lineCount) (Some minLH).

Record Metrics : Type := {
  m_fontSize : float;
  m_ascent : value;
  m_descent : value;
  m_minLineHeight : float;
  m_currentLineHeight : float
}.

Definition getMetrics (this : TextMetricsHelper) : M Metrics :=
  minLineHeight <- getMinLineHeight this ;;
  currentLineHeight <- getElementLineHeight this ;;
  ret {| m_fontSize := fontSize this;
         m_ascent := actualBoundingBoxAscent (metrics this);
         m_descent := actualBoundingBoxDescent (metrics this);
         m_minLineHeight := minLineHeight;
         m_currentLineHeight := currentLineHeight |}.

(** ** Numbers of lines *)

Module Binary64.

Local Open Scope Z_scope.

(** The mantissa [m] has the length the format asks for at exponent [e]. *)
Definition canonical (m : positive) (e : Z) : Prop :=
  fexp prec emax (Zpos (digits2_pos m) + e) = e.

Definition one : spec_float := S754_finite false 4503599627370496 (-52).

Definition two : spec_float := S754_finite false 4503599627370496 (-51).

(** The second half of [binary_round_aux]: the rounded mantissa is brought
    back to the format and the exponent is checked for overflow. *)
Definition finish (s : bool) (m1 e' : Z) : spec_float :=
  let '(mrs'', e'') := shr_fexp prec emax m1 e' loc_Exact in
  match shr_m mrs'' with
  | Z0 => S754_zero s
  | Zpos m => if e'' <=? emax - prec then S754_finite s m e'' else S754_infinity s
  | Zneg _ => S754_nan
  end.

(** A finite value above zero with no fractional part. *)
Definition positive_integer (x : spec_float) : bool :=
  match x with
  | S754_finite false m e => (0 <=? e) || (Zpos m mod 2 ^ (- e) =? 0)
  | _ => false
  end.

(** Unfold the parameters of the format, for [lia]. *)
Ltac b64 := unfold fexp, SpecFloat.emin, prec, emax in *.

End Binary64.

(** [Number.isInteger(n) && n > 0]: what the source's [lineCount] is meant
    to be. *)
Definition isPositiveInteger (n : float) : bool :=
  Binary64.positive_integer (Prim2SF n).

(** ** A page to run the helper on *)

Definition demo_style (fontSize lineHeight : string) : CSSStyleDeclaration :=
  {| style_fontSize := fontSize;
     style_fontFamily := "serif";
     style_fontWeight := "400";
     style_fontStyle := "normal";
     style_lineHeight := lineHeight |}.

(** Every element has the given font size and line height, and every text
    measures as [m]. *)
Definition demo_browser (fontSize lineHeight : string) (m : TextMetrics) : Browser :=
  {| computedStyle := fun _ => demo_style fontSize lineHeight;
     canvasMeasure := fun _ _ => m |}.

Definition measured (ascent descent : float) : TextMetrics :=
  {| actualBoundingBoxAscent := VNumber ascent;
     actualBoundingBoxDescent := VNumber descent |}.

(** A browser without the bounding-box properties. *)
Definition unsupported : TextMetrics :=
  {| actualBoundingBoxAscent := VUndefined;
     actualBoundingBoxDescent := VUndefined |}.

Definition demo_node : node := 0%nat.

Definition demo_font : CanvasFont :=
  {| font_style := "normal"; font_weight := "400";
     font_size := 48; font_family := "serif" |}.

(** The helper built for [demo_node] on a page whose font size is [48px]. *)
Definition demo_helper (m : TextMetrics) : TextMetricsHelper :=
  {| element := demo_node;
     referenceText := default_referenceText;
     fontSize := 48;
     fontFamily := "serif";
     fontWeight := "400";
     fontStyle := "normal";
     ctx := {| font := demo_font |};
     metrics := m |}.

(** The value [getMinLineHeight()] returns, without the logging. *)
Definition minLineHeight_value (this : TextMetricsHelper) : float :=
  if is_undefined (actualBoundingBoxAscent (metrics this))
     || is_undefined (actualBoundingBoxDescent (metrics this))
  then 1
  else JS.add (actualBoundingBoxAscent (metrics this))
              (actualBoundingBoxDescent (metrics this)) / fontSize this.

(** Unfold the methods down to the monad's operations. *)
Ltac run :=
  unfold getMetrics, getMinHeightForLines, getHeightForLines,
    getElementLineHeight, estimateNormalLineHeight, getMinLineHeight,
    window.getComputedStyle, console.warn, bind, ret, emit, ask, throw;
  cbv beta iota.

(** ** More numbers and traces *)

(** The constant 1.1 of [estimateNormalLineHeight], as [SpecFloat] sees it. *)
Definition eleven_tenths : spec_float := S754_finite false 4953959590107546 (-52).

(** A number that is neither zero, nor infinite, nor [NaN]. *)
Definition isNonzeroNumber (x : float) : bool :=
  match Prim2SF x with
  | S754_finite _ _ _ => true
  | _ => false
  end.

(** A number that is neither infinite nor [NaN]. *)
Definition isFiniteNumber (x : float) : bool :=
  match Prim2SF x with
  | S754_finite _ _ _ | S754_zero _ => true
  | _ => false
  end.

(** What an accessor may add to the trace: the fallback warning, a read of
    its own element's computed style, or the first then the second. *)
Definition accessor_traces (this : TextMetricsHelper) : list (list event) :=
  [ [];
    [ConsoleWarn fallback_message];
    [GetComputedStyle (element this)];
    [ConsoleWarn fallback_message; GetComputedStyle (element this)] ].

(** The minimal line height a page yields at the moment of construction:
    the reference text measured in the element's font, over the font size. *)
Definition measured_minLineHeight
    (w : Browser) (el : node) (text : option string) : float :=
  let style := computedStyle w el in
  let size := parseFloat (style_fontSize style) in
  let m := canvasMeasure w
             {| font_style := style_fontStyle style;
                font_weight := style_fontWeight style;
                font_size := size;
                font_family := style_fontFamily style |}
             match text with Some t => t | None => default_referenceText end in
  match actualBoundingBoxAscent m, actualBoundingBoxDescent m with
  | VNumber ascent, VNumber descent => (ascent + descent) / size
  | _, _ => 1
  end.

(** Find which of the [accessor_traces] a run has added. *)
Ltac ext_of this :=
  unfold accessor_traces;
  first
    [ exists (@nil event); split;
      [ rewrite app_nil_r; reflexivity | cbn; auto ]
    | exists [ConsoleWarn fallback_message]; split;
      [ reflexivity | cbn; auto ]
    | exists [GetComputedStyle (element this)]; split;
      [ reflexivity | cbn; auto ]
    | exists [ConsoleWarn fallback_message; GetComputedStyle (element this)];
      split; [ rewrite <- app_assoc; reflexivity | cbn; auto 6 ] ].

(** A computation answers the same in two pages, whatever was logged
    before: the same value, and the same events added to the trace. *)
Definition same_answer {A : Type} (c : M A)
    (w1 w2 : Browser) (t1 t2 : list event) : Prop :=
  exists v ext,
    c w1 t1 = (Return v, (t1 ++ ext)%list)
    /\ c w2 t2 = (Return v, (t2 ++ ext)%list).

(** Find the value and the events two runs share. *)
Ltac same_ext this :=
  unfold same_answer; eexists;
  first
    [ exists (@nil event); split; rewrite app_nil_r; reflexivity
    | exists [ConsoleWarn fallback_message]; split; reflexivity
    | exists [GetComputedStyle (element this)]; split; reflexivity
    | exists [ConsoleWarn fallback_message; GetComputedStyle (element this)];
      split; rewrite <- app_assoc; reflexivity ].

(** * Properties *)

(** ** The demo helper is what the constructor builds *)

Example constructor_demo (lineHeight : string) (m : TextMetrics) :
  constructor (TElement demo_node) None (demo_browser "48px" lineHeight m) []
  = (Return (demo_helper m),
     [GetComputedStyle demo_node; CreateCanvas; GetContext2d; SetFont demo_font;
      MeasureText demo_font default_referenceText]).
Proof. reflexivity. Qed.

(** What the constructor does for an element: one read of the computed
    style, one canvas, one measurement of the reference text; the instance
    keeps the font size and the measurement. *)
Lemma constructor_element
    (el : node) (text : option string) (w : Browser) (tr : list event) :
  let style := computedStyle w el in
  let t := match text with Some t => t | None => default_referenceText end in
  let f := {| font_style := style_fontStyle style;
              font_weight := style_fontWeight style;
              font_size := parseFloat (style_fontSize style);
              font_family := style_fontFamily style |} in
  constructor (TElement el) text w tr
  = (Return {| element := el; referenceText := t;
               fontSize := parseFloat (style_fontSize style);
               fontFamily := style_fontFamily style;
               fontWeight := style_fontWeight style;
               fontStyle := style_fontStyle style;
               ctx := {| font := f |};
               metrics := canvasMeasure w f t |},
     (tr ++ [GetComputedStyle el; CreateCanvas; GetContext2d; SetFont f;
             MeasureText f t])%list).
Proof.
  cbv zeta. unfold constructor, window.getComputedStyle, canvas.create,
    canvas.getContext, canvas.setFont, canvas.measureText, bind, ret, emit, ask.
  cbn [font]. rewrite <- !app_assoc. reflexivity.
Qed.

Example parseFloat_px : parseFloat "57.6px" = 57.6 /\ parseFloat "48px" = 48.
Proof. split; reflexivity. Qed.

Example parseFloat_keyword : parseFloat "normal" = nan.
Proof. reflexivity. Qed.

(** ** Facts about binary64 rounding

    [Floats] specifies the primitive operations by [SpecFloat]'s functions;
    the facts below are about those: multiplying by a power of two loses
    nothing, and rounding a product commutes with doubling it. *)

Module Binary64Facts.

Import Binary64.
Local Open Scope Z_scope.


(** A mantissa of [d] binary digits lies between [2 ^ (d - 1)] and [2 ^ d]. *)
Lemma digits2_pos_bounds (p : positive) :
  2 ^ (Zpos (digits2_pos p) - 1) <= Zpos p < 2 ^ Zpos (digits2_pos p).
Proof.
  induction p as [p IH | p IH | ]; cbn [digits2_pos].
  - rewrite Pos2Z.inj_succ, Z.pow_succ_r by lia.
    replace (Z.succ (Zpos (digits2_pos p)) - 1) with (Z.succ (Zpos (digits2_pos p) - 1)) by lia.
    rewrite Z.pow_succ_r by lia. lia.
  - rewrite Pos2Z.inj_succ, Z.pow_succ_r by lia.
    replace (Z.succ (Zpos (digits2_pos p)) - 1) with (Z.succ (Zpos (digits2_pos p) - 1)) by lia.
    rewrite Z.pow_succ_r by lia. lia.
  - cbn. lia.
Qed.

(** And the bounds determine the number of digits. *)
Lemma digits2_pos_unique (p : positive) (d : Z) :
  2 ^ (d - 1) <= Zpos p < 2 ^ d -> Zpos (digits2_pos p) = d.
Proof.
  intros [Hlo Hhi].
  pose proof (digits2_pos_bounds p) as [Blo Bhi].
  assert (0 < d).
  { destruct (Z_lt_le_dec 0 d) as [|Hd]; [assumption|].
    destruct (Z.eq_dec d 0) as [->|]; [cbn in Hhi; lia|].
    rewrite Z.pow_neg_r in Hhi by lia. lia. }
  destruct (Z_lt_le_dec (Zpos (digits2_pos p)) d) as [Hlt|Hge].
  - assert (2 ^ Zpos (digits2_pos p) <= 2 ^ (d - 1)) by (apply Z.pow_le_mono_r; lia). lia.
  - destruct (Z.eq_dec (Zpos (digits2_pos p)) d) as [|Hne]; [assumption|].
    assert (2 ^ d <= 2 ^ (Zpos (digits2_pos p) - 1)) by (apply Z.pow_le_mono_r; lia). lia.
Qed.

(** Appending [k] zero bits adds [k] digits. *)
Lemma digits2_pos_shift (m M : positive) (k : Z) :
  0 <= k -> Zpos M = Zpos m * 2 ^ k ->
  Zpos (digits2_pos M) = Zpos (digits2_pos m) + k.
Proof.
  intros Hk HM. apply digits2_pos_unique.
  pose proof (digits2_pos_bounds m) as [Blo Bhi].
  rewrite HM.
  replace (Zpos (digits2_pos m) + k - 1) with ((Zpos (digits2_pos m) - 1) + k) by lia.
  rewrite !Z.pow_add_r by lia.
  assert (0 < 2 ^ k) by (apply Z.pow_pos_nonneg; lia).
  split; nia.
Qed.

(** Powers of two along the binary representation of the exponent. *)
Lemma pow2_xO (p : positive) : 2 ^ Zpos p~0 = 2 ^ Zpos p * 2 ^ Zpos p.
Proof. rewrite <- Z.pow_add_r by lia. f_equal. lia. Qed.

Lemma pow2_xI (p : positive) : 2 ^ Zpos p~1 = 2 * (2 ^ Zpos p * 2 ^ Zpos p).
Proof.
  rewrite <- Z.pow_add_r, <- Z.pow_succ_r by lia. f_equal. lia.
Qed.

(** Shifting out [p] zero bits loses nothing. *)
Lemma shr_exact (p : positive) :
  forall z : Z,
    iter_pos shr_1 p {| shr_m := z * 2 ^ Zpos p; shr_r := false; shr_s := false |}
    = {| shr_m := z; shr_r := false; shr_s := false |}.
Proof.
  assert (step : forall z, shr_1 {| shr_m := 2 * z; shr_r := false; shr_s := false |}
                           = {| shr_m := z; shr_r := false; shr_s := false |}).
  { intros [|q|q]; reflexivity. }
  induction p as [p IH | p IH | ]; intros z; cbn [iter_pos].
  - replace (z * 2 ^ Zpos p~1) with (2 * ((z * 2 ^ Zpos p) * 2 ^ Zpos p))
      by (rewrite pow2_xI; ring).
    rewrite step, IH, IH. reflexivity.
  - replace (z * 2 ^ Zpos p~0) with ((z * 2 ^ Zpos p) * 2 ^ Zpos p)
      by (rewrite pow2_xO; ring).
    rewrite IH, IH. reflexivity.
  - rewrite Z.pow_1_r, Z.mul_comm. apply step.
Qed.

(** Aligning [m * 2 ^ k] at the exponent where [m] is canonical gives back
    [m], with nothing to round. *)
Lemma shr_fexp_exact (m M : positive) (e k : Z) :
  0 <= k -> Zpos M = Zpos m * 2 ^ k -> canonical m e ->
  shr_fexp prec emax (Zpos M) (e - k) loc_Exact
  = ({| shr_m := Zpos m; shr_r := false; shr_s := false |}, e).
Proof.
  intros Hk HM Hc. unfold shr_fexp. cbn [Zdigits2].
  rewrite (digits2_pos_shift m M k Hk HM).
  replace (Zpos (digits2_pos m) + k + (e - k)) with (Zpos (digits2_pos m) + e) by lia.
  rewrite Hc. replace (e - (e - k)) with k by lia.
  cbn [shr_record_of_loc]. unfold shr.
  destruct k as [|p|p]; [ | | lia].
  - rewrite Z.pow_0_r, Z.mul_1_r in HM. rewrite HM. f_equal. lia.
  - rewrite HM, shr_exact. f_equal. lia.
Qed.

(** So rounding it returns [m] at that exponent, or overflows. *)
Lemma binary_round_aux_exact (s : bool) (m M : positive) (e k : Z) :
  0 <= k -> Zpos M = Zpos m * 2 ^ k -> canonical m e ->
  binary_round_aux prec emax s (Zpos M) (e - k) loc_Exact
  = if e <=? emax - prec then S754_finite s m e else S754_infinity s.
Proof.
  intros Hk HM Hc. unfold binary_round_aux.
  rewrite (shr_fexp_exact m M e k Hk HM Hc).
  cbn [shr_m loc_of_shr_record round_nearest_even].
  replace e with (e - 0) at 1 by lia.
  rewrite (shr_fexp_exact m m e 0); [ | lia | rewrite Z.pow_0_r; lia | exact Hc ].
  reflexivity.
Qed.

(** What [valid_binary] says of a finite value. *)
Lemma valid_finite (s : bool) (m : positive) (e : Z) :
  valid_binary (S754_finite s m e) = true -> canonical m e /\ e <= 971.
Proof.
  cbn [SpecFloat.valid_binary]. unfold bounded, canonical_mantissa, canonical.
  intros H. apply andb_prop in H as [Hc Hb].
  apply Z.eqb_eq in Hc. apply Z.leb_le in Hb. split; [exact Hc | exact Hb].
Qed.

(** No exponent lies below that of the subnormals. *)
Lemma canonical_emin (m : positive) (e : Z) : canonical m e -> -1074 <= e.
Proof. unfold canonical. b64. lia. Qed.

(** Multiplying by one changes nothing. *)
Lemma SFmul_one_r (x : spec_float) :
  valid_binary x = true -> SF64mul x one = x.
Proof.
  destruct x as [s|s| |s m e]; intros Hv; try (destruct s; reflexivity); [reflexivity|].
  apply valid_finite in Hv as [Hc Hb].
  unfold SF64mul, SFmul, one.
  replace (e + -52) with (e - 52) by lia.
  rewrite (binary_round_aux_exact _ m _ e 52); [ | lia | rewrite Pos2Z.inj_mul; reflexivity | exact Hc ].
  rewrite xorb_false_r.
  replace (e <=? emax - prec) with true; [reflexivity|].
  symmetry. apply Z.leb_le. cbn. lia.
Qed.

(** Doubling a finite value: the exponent moves up, unless the mantissa
    still has room (a subnormal). *)
Lemma SFmul_two_normal (s : bool) (m : positive) (e : Z) :
  canonical m e -> Zpos (digits2_pos m) = 53 ->
  SF64mul two (S754_finite s m e)
  = if e + 1 <=? 971 then S754_finite s m (e + 1) else S754_infinity s.
Proof.
  intros Hc Hd. pose proof (canonical_emin m e Hc) as He.
  unfold SF64mul, SFmul, two.
  replace (-51 + e) with ((e + 1) - 52) by lia.
  rewrite (binary_round_aux_exact _ m _ (e + 1) 52);
    [ | lia | rewrite Pos2Z.inj_mul, Z.mul_comm; reflexivity | ].
  - rewrite xorb_false_l. reflexivity.
  - unfold canonical. rewrite Hd. b64. lia.
Qed.

(** The double of a subnormal whose mantissa has room for one more bit. *)
Lemma SFmul_two_subnormal (s : bool) (m : positive) :
  Zpos (digits2_pos m) < 53 ->
  SF64mul two (S754_finite s m (-1074)) = S754_finite s m~0 (-1074).
Proof.
  intros Hd. unfold SF64mul, SFmul, two.
  replace (-51 + -1074) with (-1074 - 51) by lia.
  rewrite (binary_round_aux_exact _ m~0 _ (-1074) 51);
    [ | lia | change (2 ^ 51) with 2251799813685248; lia | ].
  - rewrite xorb_false_l. reflexivity.
  - unfold canonical. cbn [digits2_pos]. rewrite Pos2Z.inj_succ. b64. lia.
Qed.

(** [binary_round_aux] aligns, rounds, and finishes. *)
Lemma binary_round_aux_finish (s : bool) (mx ex : Z) (lx : location) :
  binary_round_aux prec emax s mx ex lx
  = finish s (round_nearest_even (shr_m (fst (shr_fexp prec emax mx ex lx)))
                                 (loc_of_shr_record (fst (shr_fexp prec emax mx ex lx))))
           (snd (shr_fexp prec emax mx ex lx)).
Proof.
  unfold binary_round_aux, finish.
  destruct (shr_fexp prec emax mx ex lx) as [mrs' e']. reflexivity.
Qed.

(** Above the subnormal range, finishing one exponent higher is doubling. *)
Lemma finish_double (s : bool) (m1 e' : Z) :
  -1074 < e' -> valid_binary (finish s m1 e') = true ->
  finish s m1 (e' + 1) = SF64mul two (finish s m1 e').
Proof.
  intros He. unfold finish, shr_fexp, shr.
  set (d1 := Zdigits2 m1). set (r := shr_record_of_loc m1 loc_Exact).
  assert (Hsh : exists n, fexp prec emax (d1 + e') - e' = n /\
             (fexp prec emax (d1 + (e' + 1)) - (e' + 1) = n \/
              (n <= 0 /\ fexp prec emax (d1 + (e' + 1)) - (e' + 1) <= 0))).
  { eexists; split; [reflexivity|]. b64. lia. }
  destruct Hsh as (n & -> & Hn).
  assert (Hgoal : forall mrs e'',
    e' <= e'' ->
    valid_binary match shr_m mrs with
      | 0 => S754_zero s
      | Z.pos m => if e'' <=? emax - prec then S754_finite s m e'' else S754_infinity s
      | Z.neg _ => S754_nan end = true ->
    match shr_m mrs with
      | 0 => S754_zero s
      | Z.pos m => if e'' + 1 <=? emax - prec then S754_finite s m (e'' + 1) else S754_infinity s
      | Z.neg _ => S754_nan end
    = SF64mul two match shr_m mrs with
      | 0 => S754_zero s
      | Z.pos m => if e'' <=? emax - prec then S754_finite s m e'' else S754_infinity s
      | Z.neg _ => S754_nan end).
  { intros mrs e'' Hle Hv. destruct (shr_m mrs) as [|m|m].
    - destruct s; reflexivity.
    - change (emax - prec) with 971 in *.
      destruct (Z.leb_spec e'' 971) as [Hb|Hb].
      + apply valid_finite in Hv as [Hc _].
        rewrite SFmul_two_normal; [reflexivity | exact Hc | ].
        unfold canonical in Hc. b64. lia.
      + destruct (Z.leb_spec (e'' + 1) 971); [lia|]. destruct s; reflexivity.
    - reflexivity. }
  destruct Hn as [-> | [Hn1 Hn2]].
  - destruct n as [|p|p]; try (apply Hgoal; lia).
    replace (e' + 1 + Z.pos p) with (e' + Z.pos p + 1) by lia.
    apply Hgoal. lia.
  - destruct n as [|p|p]; try lia;
    destruct (fexp prec emax (d1 + (e' + 1)) - (e' + 1)) as [|p'|p']; try lia;
    apply Hgoal; lia.
Qed.

(** Rounding commutes with doubling when the result is above the
    subnormal range. *)
Lemma binary_round_aux_double_normal (s : bool) (M : positive) (E : Z) :
  -1074 < Zpos (digits2_pos M) + E - 53 ->
  valid_binary (binary_round_aux prec emax s (Zpos M) E loc_Exact) = true ->
  binary_round_aux prec emax s (Zpos M) (E + 1) loc_Exact
  = SF64mul two (binary_round_aux prec emax s (Zpos M) E loc_Exact).
Proof.
  intros Hd. rewrite !binary_round_aux_finish.
  unfold shr_fexp, shr. cbn [Zdigits2].
  replace (fexp prec emax (Zpos (digits2_pos M) + (E + 1)) - (E + 1))
    with (Zpos (digits2_pos M) - 53) by (b64; lia).
  replace (fexp prec emax (Zpos (digits2_pos M) + E) - E)
    with (Zpos (digits2_pos M) - 53) by (b64; lia).
  destruct (Zpos (digits2_pos M) - 53) as [|p|p] eqn:Hk; cbn [fst snd].
  - apply finish_double. lia.
  - replace (E + 1 + Z.pos p) with (E + Z.pos p + 1) by lia.
    apply finish_double. lia.
  - apply finish_double. lia.
Qed.

(** In the subnormal range a product that is a multiple of the smallest
    subnormal is rounded exactly, and so is its double. *)
Lemma binary_round_aux_double_exact (s : bool) (M : positive) (E : Z) :
  E <= -1074 -> Zpos M mod 2 ^ (-1074 - E) = 0 ->
  53 <= Zpos (digits2_pos M) -> Zpos (digits2_pos M) + E - 53 <= -1074 ->
  binary_round_aux prec emax s (Zpos M) (E + 1) loc_Exact
  = SF64mul two (binary_round_aux prec emax s (Zpos M) E loc_Exact).
Proof.
  intros HE Hmod Hlo Hhi. set (k := -1074 - E) in *.
  assert (Hk : 0 <= k) by lia.
  assert (Hpow : 0 < 2 ^ k) by (apply Z.pow_pos_nonneg; lia).
  assert (HM : Zpos M = (Zpos M / 2 ^ k) * 2 ^ k).
  { rewrite Z.mul_comm. apply Z.div_exact; lia. }
  destruct (Zpos M / 2 ^ k) as [|q|q] eqn:HQ; [lia | | lia].
  pose proof (digits2_pos_shift q M k Hk HM) as Hdq.
  assert (Hcq : canonical q (-1074)) by (unfold canonical; b64; lia).
  replace E with (-1074 - k) at 2 by lia.
  rewrite (binary_round_aux_exact s q M (-1074) k Hk HM Hcq).
  change (-1074 <=? emax - prec) with true. cbv iota.
  destruct (Z.eq_dec (Zpos (digits2_pos q)) 53) as [H53|H53].
  - rewrite (SFmul_two_normal s q (-1074) Hcq H53).
    replace (E + 1) with ((-1074 + 1) - k) by lia.
    rewrite (binary_round_aux_exact s q M (-1074 + 1) k Hk HM).
    + reflexivity.
    + unfold canonical. rewrite H53. reflexivity.
  - rewrite (SFmul_two_subnormal s q) by lia.
    assert (Hk1 : 0 <= k - 1) by lia.
    assert (HM' : Zpos M = Zpos q~0 * 2 ^ (k - 1)).
    { rewrite HM. replace k with (Z.succ (k - 1)) at 1 by lia.
      rewrite Z.pow_succ_r by lia. lia. }
    replace (E + 1) with (-1074 - (k - 1)) by lia.
    rewrite (binary_round_aux_exact s q~0 M (-1074) (k - 1) Hk1 HM').
    + reflexivity.
    + unfold canonical. cbn [digits2_pos]. rewrite Pos2Z.inj_succ. b64. lia.
Qed.

(** A positive integer is at least 1, hence normal. *)
Lemma positive_integer_normal (m : positive) (e : Z) :
  canonical m e -> positive_integer (S754_finite false m e) = true ->
  Zpos (digits2_pos m) = 53.
Proof.
  unfold canonical, positive_integer. intros Hc Hi.
  pose proof (digits2_pos_bounds m) as [_ Bhi].
  destruct (Z.eq_dec (Zpos (digits2_pos m)) 53) as [|Hne]; [assumption|exfalso].
  assert (He : e = -1074) by (b64; lia).
  assert (Hd : Zpos (digits2_pos m) < 53) by (b64; lia).
  subst e. cbn [Z.leb Z.compare orb Z.opp] in Hi. apply Z.eqb_eq in Hi.
  assert (2 ^ Zpos (digits2_pos m) <= 2 ^ 53) by (apply Z.pow_le_mono_r; lia).
  assert (2 ^ 53 < 2 ^ 1074) by (apply Z.pow_lt_mono_r; lia).
  apply Z.mod_divide in Hi; [ | lia ].
  apply Z.divide_pos_le in Hi; lia.
Qed.

(** Multiplying by the double of a positive integer is doubling the
    product: in the normal range rounding commutes with doubling, below it
    the product of a number and an integer is exact. *)
Lemma SFmul_double (x : spec_float) (m : positive) (e : Z) :
  valid_binary x = true ->
  valid_binary (S754_finite false m e) = true ->
  positive_integer (S754_finite false m e) = true ->
  valid_binary (SF64mul x (S754_finite false m e)) = true ->
  SF64mul x (S754_finite false m (e + 1))
  = SF64mul two (SF64mul x (S754_finite false m e)).
Proof.
  intros Hx Hn Hi Hxn.
  destruct x as [s|s| |s mx ex]; try (destruct s; reflexivity); [reflexivity|].
  apply valid_finite in Hx as [Hcx _]. apply valid_finite in Hn as [Hcn _].
  pose proof (positive_integer_normal m e Hcn Hi) as H53.
  pose proof (canonical_emin mx ex Hcx) as Hex.
  unfold SF64mul in Hxn. unfold SF64mul at 1 3. cbn [SFmul] in Hxn |- *.
  replace (ex + (e + 1)) with (ex + e + 1) by lia.
  destruct (Z_lt_le_dec (-1074) (Zpos (digits2_pos (mx * m)) + (ex + e) - 53)) as [Hnormal|Hsub].
  - apply binary_round_aux_double_normal; assumption.
  - assert (Hd : 53 <= Zpos (digits2_pos (mx * m))).
    { pose proof (digits2_pos_bounds m) as [Blo _].
      pose proof (digits2_pos_bounds (mx * m)) as [_ Bhi].
      rewrite H53 in Blo. rewrite Pos2Z.inj_mul in Bhi.
      destruct (Z_lt_le_dec (Zpos (digits2_pos (mx * m))) 53) as [Hlt|]; [exfalso|assumption].
      assert (2 ^ Zpos (digits2_pos (mx * m)) <= 2 ^ (53 - 1)) by (apply Z.pow_le_mono_r; lia).
      nia. }
    apply binary_round_aux_double_exact; try lia.
    set (k := -1074 - (ex + e)).
    destruct (Z.eq_dec k 0) as [->|Hk0]; [apply Z.mod_1_r|].
    assert (He : e < 0) by lia.
    unfold positive_integer in Hi.
    destruct (Z.leb_spec 0 e) as [|_]; [lia|]. cbn [orb] in Hi. apply Z.eqb_eq in Hi.
    assert (Hp : 0 < 2 ^ (- e)) by (apply Z.pow_pos_nonneg; lia).
    apply Z.mod_divide in Hi; [ | lia ]. destruct Hi as [c Hc].
    rewrite Pos2Z.inj_mul, Hc.
    replace (- e) with ((- e - k) + k) by lia.
    rewrite Z.pow_add_r by lia.
    replace (Z.pos mx * (c * (2 ^ (- e - k) * 2 ^ k))) with ((Z.pos mx * c * 2 ^ (- e - k)) * 2 ^ k) by ring.
    apply Z.mod_mul. apply Z.pow_nonzero; lia.
Qed.

End Binary64Facts.

(** ** The same facts on JavaScript numbers *)

Lemma Prim2SF_one : Prim2SF 1 = Binary64.one.
Proof. reflexivity. Qed.

Lemma Prim2SF_two : Prim2SF 2 = Binary64.two.
Proof. reflexivity. Qed.

(** [x * 1] is [x], whatever [x] is ([NaN] and the infinities included). *)
Lemma float_mul_1_r (x : float) : x * 1 = x.
Proof.
  apply Prim2SF_inj. rewrite mul_spec, Prim2SF_one.
  apply Binary64Facts.SFmul_one_r, Prim2SF_valid.
Qed.

(** For a line count [n] such that [n] and [2 * n] are positive integers,
    scaling by [2 * n] is twice scaling by [n]: no rounding comes between. *)
Lemma float_mul_double (x n : float) :
  isPositiveInteger n = true -> isPositiveInteger (2 * n) = true ->
  x * (2 * n) = 2 * (x * n).
Proof.
  unfold isPositiveInteger. intros Hn H2n.
  apply Prim2SF_inj. rewrite !mul_spec, Prim2SF_two.
  rewrite mul_spec, Prim2SF_two in H2n.
  pose proof (Prim2SF_valid n) as Vn.
  pose proof (Prim2SF_valid (x * n)) as Vxn. rewrite mul_spec in Vxn.
  destruct (Prim2SF n) as [s|s| |s m e]; try discriminate Hn.
  destruct s; [discriminate Hn|].
  pose proof (Binary64Facts.valid_finite _ _ _ Vn) as [Hc _].
  pose proof (Binary64Facts.positive_integer_normal m e Hc Hn) as H53.
  rewrite (Binary64Facts.SFmul_two_normal false m e Hc H53) in H2n |- *.
  destruct (Z.leb_spec (e + 1) 971) as [_|_]; [ | discriminate H2n ].
  apply Binary64Facts.SFmul_double; [apply Prim2SF_valid | assumption..].
Qed.

(** [NaN] is absorbing. *)
Lemma float_add_nan_l (x : float) : nan + x = nan.
Proof. apply Prim2SF_inj. rewrite add_spec. reflexivity. Qed.

Lemma float_add_nan_r (x : float) : x + nan = nan.
Proof.
  apply Prim2SF_inj. rewrite add_spec.
  change (Prim2SF nan) with S754_nan. destruct (Prim2SF x); reflexivity.
Qed.

Lemma float_div_nan_l (x : float) : nan / x = nan.
Proof. apply Prim2SF_inj. rewrite div_spec. reflexivity. Qed.

Lemma float_mul_nan_l (x : float) : nan * x = nan.
Proof. apply Prim2SF_inj. rewrite mul_spec. reflexivity. Qed.

(** Two numbers that [===] tells apart are different. *)
Lemma float_neq_by_eqb (x y : float) :
  PrimFloat.eqb x x = true -> PrimFloat.eqb x y = false -> x <> y.
Proof. intros Hxx Hxy ->. rewrite Hxx in Hxy. discriminate. Qed.

(** ** [parseFloat] on a length in pixels *)

Module CSSFacts.

Import ParseFloat CSS.
Local Open Scope Z_scope.

(** [parseFloat] reads a digit back as written. *)
Lemma digit_of_digit_char (d : Z) : is_digit d -> digit_of (digit_char d) = Some d.
Proof. intros H. each_digit d H; reflexivity. Qed.

(** It reads a run of digits up to the first character that is none. *)
Lemma read_digits_digits (ds : list Z) (rest : string) :
  Forall is_digit ds ->
  (forall acc count, read_digits rest acc count = (acc, count, rest)) ->
  forall acc count,
    read_digits (digits_string ds ++ rest) acc count
    = (digits_value ds acc, count + Z.of_nat (List.length ds), rest).
Proof.
  intros Hds Hrest. induction Hds as [|d ds Hd _ IH]; intros acc count.
  - cbn [digits_string append digits_value fold_left List.length Z.of_nat].
    rewrite Hrest. f_equal. f_equal. lia.
  - cbn [digits_string append read_digits]. rewrite (digit_of_digit_char d Hd), IH.
    cbn [digits_value fold_left List.length]. f_equal. f_equal. lia.
Qed.

(** A string that starts with a digit has no white space to skip, no sign
    and is not [Infinity]. *)
Lemma parse_starts_with_digit (d : Z) (rest : string) :
  is_digit d ->
  parse (String (digit_char d) rest)
  = let '(int, ni, after_int) := read_digits (String (digit_char d) rest) 0 0 in
    match after_int with
    | String "." after_dot =>
        let '(m, nf, after_frac) := read_digits after_dot int 0 in
        if (ni =? 0) && (nf =? 0) then S754_nan
        else round_decimal false m (read_exponent after_frac - nf)
    | _ =>
        if ni =? 0 then S754_nan
        else round_decimal false int (read_exponent after_int)
    end.
Proof. intros H. each_digit d H; reflexivity. Qed.

(** [parseFloat] of a length in pixels is the number of pixels. *)
Lemma parseFloat_px_string (d : Z) (int frac : list Z) :
  is_digit d -> Forall is_digit int -> Forall is_digit frac ->
  parseFloat (px_string (d :: int) frac) = pixels (d :: int) frac.
Proof.
  intros Hd Hint Hfrac. unfold parseFloat, pixels. f_equal.
  unfold px_string. cbn [digits_string append].
  rewrite (parse_starts_with_digit d _ Hd).
  change (String (digit_char d) (digits_string int ++ ?t))
    with (digits_string (d :: int) ++ t).
  destruct frac as [|f frac].
  - rewrite read_digits_digits; [ | constructor; assumption | reflexivity ].
    rewrite app_nil_r.
    replace (0 + Z.of_nat (List.length (d :: int)) =? 0) with false
      by (symmetry; apply Z.eqb_neq; cbn [List.length]; lia).
    reflexivity.
  - rewrite read_digits_digits; [ | constructor; assumption | reflexivity ].
    rewrite read_digits_digits; [ | assumption | reflexivity ].
    replace (0 + Z.of_nat (List.length (d :: int)) =? 0) with false
      by (symmetry; apply Z.eqb_neq; cbn [List.length]; lia).
    cbn [andb]. unfold digits_value. rewrite <- fold_left_app.
    replace (read_exponent "px" - (0 + Z.of_nat (List.length (f :: frac))))
      with (- Z.of_nat (List.length (f :: frac))) by (cbn [read_exponent]; cbn; lia).
    reflexivity.
Qed.

(** A length in pixels is not the keyword [normal]. *)
Lemma px_string_not_normal (d : Z) (int frac : list Z) :
  is_digit d -> px_string (d :: int) frac <> "normal".
Proof.
  intros H. unfold px_string. cbn [digits_string append].
  each_digit d H; discriminate.
Qed.

End CSSFacts.

(** ** The accessors *)

(** Neither line-height accessor throws. *)
Lemma getMinLineHeight_returns this w tr :
  exists tr', getMinLineHeight this w tr = (Return (minLineHeight_value this), tr').
Proof.
  unfold minLineHeight_value. run.
  destruct (is_undefined _ || is_undefined _); eexists; reflexivity.
Qed.

Lemma getElementLineHeight_returns this w tr :
  exists lh,
    getElementLineHeight this w tr
    = (Return lh, (tr ++ [GetComputedStyle (element this)])%list).
Proof.
  run. destruct (String.eqb _ _); eexists; reflexivity.
Qed.

(** C1: when the measurement reports both ascent and descent,
    [getMinLineHeight()] returns [(ascent + descent) / fontSize], and
    nothing is logged. *)
Theorem C1_min_line_height_measured
    (this : TextMetricsHelper) (ascent descent : float)
    (w : Browser) (tr : list event) :
  actualBoundingBoxAscent (metrics this) = VNumber ascent ->
  actualBoundingBoxDescent (metrics this) = VNumber descent ->
  getMinLineHeight this w tr
  = (Return ((ascent + descent) / fontSize this), tr).
Proof.
  intros Ha Hd. unfold getMinLineHeight. rewrite Ha, Hd. reflexivity.
Qed.

Lemma C1_min_line_height_measured_witness :
  getMinLineHeight (demo_helper (measured 40 8))
                   (demo_browser "48px" "normal" (measured 40 8)) []
  = (Return 1, []).
Proof.
  apply (C1_min_line_height_measured (demo_helper (measured 40 8)) 40 8);
    reflexivity.
Defined.

(** C2: when ascent or descent is missing from the measurement,
    [getMinLineHeight()] returns 1, the warning is written to the console,
    and nothing is thrown. *)
Theorem C2_min_line_height_fallback
    (this : TextMetricsHelper) (w : Browser) (tr : list event) :
  actualBoundingBoxAscent (metrics this) = VUndefined
  \/ actualBoundingBoxDescent (metrics this) = VUndefined ->
  getMinLineHeight this w tr
  = (Return 1, (tr ++ [ConsoleWarn fallback_message])%list).
Proof.
  intros [H | H]; unfold getMinLineHeight; rewrite H.
  - reflexivity.
  - destruct (actualBoundingBoxAscent (metrics this)); reflexivity.
Qed.

Lemma C2_min_line_height_fallback_witness :
  getMinLineHeight (demo_helper unsupported)
                   (demo_browser "48px" "normal" unsupported) []
  = (Return 1, [ConsoleWarn fallback_message]).
Proof.
  apply (C2_min_line_height_fallback (demo_helper unsupported)).
  left. reflexivity.
Defined.

(** C3: with [line-height: normal] and a measurement that reports ascent
    and descent, [getElementLineHeight()] returns
    [(ascent + descent) / fontSize * 1.1]; for a font size of 48, an ascent
    of 40 and a descent of 8 that is 1.1. *)
Theorem C3_normal_line_height_estimate
    (this : TextMetricsHelper) (ascent descent : float)
    (w : Browser) (tr : list event) :
  style_lineHeight (computedStyle w (element this)) = "normal" ->
  actualBoundingBoxAscent (metrics this) = VNumber ascent ->
  actualBoundingBoxDescent (metrics this) = VNumber descent ->
  getElementLineHeight this w tr
  = (Return ((ascent + descent) / fontSize this * 1.1),
     (tr ++ [GetComputedStyle (element this)])%list)
  /\ (fontSize this = 48 -> ascent = 40 -> descent = 8 ->
      fst (getElementLineHeight this w tr) = Return 1.1).
Proof.
  intros Hlh Ha Hd.
  assert (H : getElementLineHeight this w tr
              = (Return ((ascent + descent) / fontSize this * 1.1),
                 (tr ++ [GetComputedStyle (element this)])%list)).
  { run. rewrite Hlh, Ha, Hd. reflexivity. }
  split; [exact H|].
  intros Hfs -> ->. rewrite H, Hfs. reflexivity.
Qed.

Lemma C3_normal_line_height_estimate_witness :
  getElementLineHeight (demo_helper (measured 40 8))
                       (demo_browser "48px" "normal" (measured 40 8)) []
  = (Return 1.1, [GetComputedStyle demo_node]).
Proof.
  apply (C3_normal_line_height_estimate (demo_helper (measured 40 8)) 40 8);
    reflexivity.
Defined.

(** C4: with a declared line height, a length in pixels,
    [getElementLineHeight()] returns the number of pixels divided by
    [fontSize] (the number [parseFloat] reads, which for a string of digits
    and [px] is the nearest number to the decimal); for [57.6px] and a
    font size of 48 that is 1.2. *)
Theorem C4_declared_line_height
    (this : TextMetricsHelper) (w : Browser) (tr : list event) :
  style_lineHeight (computedStyle w (element this)) <> "normal" ->
  getElementLineHeight this w tr
  = (Return (parseFloat (style_lineHeight (computedStyle w (element this)))
             / fontSize this),
     (tr ++ [GetComputedStyle (element this)])%list)
  /\ (forall d int frac,
        CSS.is_digit d -> Forall CSS.is_digit int -> Forall CSS.is_digit frac ->
        style_lineHeight (computedStyle w (element this))
        = CSS.px_string (d :: int) frac ->
        fst (getElementLineHeight this w tr)
        = Return (CSS.pixels (d :: int) frac / fontSize this))
  /\ (style_lineHeight (computedStyle w (element this)) = "57.6px" ->
      fontSize this = 48 ->
      fst (getElementLineHeight this w tr) = Return 1.2).
Proof.
  intros Hlh.
  assert (H : getElementLineHeight this w tr
              = (Return (parseFloat (style_lineHeight (computedStyle w (element this)))
                         / fontSize this),
                 (tr ++ [GetComputedStyle (element this)])%list)).
  { run. apply String.eqb_neq in Hlh. rewrite Hlh. reflexivity. }
  split; [exact H|]. split.
  - intros d int frac Hd Hint Hfrac Hpx.
    rewrite H, Hpx, (CSSFacts.parseFloat_px_string d int frac Hd Hint Hfrac).
    reflexivity.
  - intros Hpx Hfs. rewrite H, Hpx, Hfs. reflexivity.
Qed.

Lemma C4_declared_line_height_witness :
  getElementLineHeight (demo_helper (measured 40 8))
                       (demo_browser "48px" "57.6px" (measured 40 8)) []
  = (Return 1.2, [GetComputedStyle demo_node])
  /\ fst (getElementLineHeight (demo_helper (measured 40 8))
            (demo_browser "48px" "57.6px" (measured 40 8)) [])
     = Return (CSS.pixels [5; 7]%Z [6]%Z / 48).
Proof.
  destruct (C4_declared_line_height (demo_helper (measured 40 8))
              (demo_browser "48px" "57.6px" (measured 40 8)) [])
    as (Hvalue & Hpx & _).
  - discriminate.
  - split; [exact Hvalue|].
    apply (Hpx 5%Z [7%Z] [6%Z]).
    + unfold CSS.is_digit. lia.
    + repeat constructor; discriminate.
    + repeat constructor; discriminate.
    + reflexivity.
Defined.

(** C5, as amended: [getHeightForLines(lineCount, lh)] returns
    [lh * fontSize * lineCount] for every [lineCount] (zero and negative
    ones too) without throwing; for a positive integer [n] whose double
    [2 * n] is a positive integer too (it has not overflowed to
    [Infinity]: [n] is below [2 ^ 1023]), [getHeightForLines(2 * n, lh)] is
    exactly twice [getHeightForLines(n, lh)]; and with [lineHeight] left
    out the value of [getElementLineHeight()] takes its place. *)
Theorem C5_height_for_lines
    (this : TextMetricsHelper) (w : Browser) (tr : list event)
    (lineCount lh : float) :
  getHeightForLines this (Some lineCount) (Some lh) w tr
  = (Return (lh * fontSize this * lineCount), tr)
  /\ (forall n : float,
        isPositiveInteger n = true -> isPositiveInteger (2 * n) = true ->
        exists height,
          getHeightForLines this (Some n) (Some lh) w tr = (Return height, tr)
          /\ getHeightForLines this (Some (2 * n)) (Some lh) w tr
             = (Return (2 * height), tr))
  /\ (exists current tr',
        getElementLineHeight this w tr = (Return current, tr')
        /\ getHeightForLines this (Some lineCount) None w tr
           = (Return (current * fontSize this * lineCount), tr')).
Proof.
  split; [reflexivity|]. split.
  - intros n Hn H2n. exists (lh * fontSize this * n). split; [reflexivity|].
    unfold getHeightForLines, bind, ret.
    rewrite (float_mul_double (lh * fontSize this) n Hn H2n). reflexivity.
  - destruct (getElementLineHeight_returns this w tr) as [current Hcur].
    exists current. eexists. split; [exact Hcur|].
    unfold getHeightForLines, bind, ret. rewrite Hcur. reflexivity.
Qed.

Lemma C5_height_for_lines_witness :
  getHeightForLines (demo_helper (measured 40 8)) (Some 3) (Some 1.2)
                    (demo_browser "48px" "57.6px" (measured 40 8)) []
  = (Return (1.2 * 48 * 3), [])
  /\ getHeightForLines (demo_helper (measured 40 8)) (Some 6) (Some 1.2)
                       (demo_browser "48px" "57.6px" (measured 40 8)) []
     = (Return (2 * (1.2 * 48 * 3)), []).
Proof.
  destruct (C5_height_for_lines (demo_helper (measured 40 8))
              (demo_browser "48px" "57.6px" (measured 40 8)) [] 3 1.2)
    as (Hformula & Hdouble & _).
  split; [exact Hformula|].
  destruct (Hdouble 3 eq_refl eq_refl) as (height & Hn & H2n).
  rewrite Hformula in Hn. injection Hn as <-. exact H2n.
Defined.

(** C5, as stated, fails for the positive integer [2 ^ 1023]: its double
    is [Infinity], so with a line height of 0.01 and a font size of 48 the
    height for [2 * n] lines is [Infinity], while twice the height for [n]
    lines is a finite number. *)
Lemma C5_doubling_overflows :
  isPositiveInteger 0x1p1023 = true
  /\ exists height,
       getHeightForLines (demo_helper (measured 40 8)) (Some 0x1p1023)
         (Some 0.01) (demo_browser "48px" "normal" (measured 40 8)) []
       = (Return height, [])
       /\ getHeightForLines (demo_helper (measured 40 8))
            (Some (2 * 0x1p1023)) (Some 0.01)
            (demo_browser "48px" "normal" (measured 40 8)) []
          = (Return infinity, [])
       /\ 2 * height <> infinity.
Proof.
  split; [reflexivity|]. eexists.
  split; [reflexivity|]. split; [reflexivity|].
  apply float_neq_by_eqb; reflexivity.
Qed.

(** C6: with [line-height: normal] and ascent or descent missing from the
    measurement, [getElementLineHeight()] returns [NaN], not 1, and logs no
    warning. *)
Theorem C6_normal_line_height_unmeasured
    (this : TextMetricsHelper) (w : Browser) (tr : list event) :
  style_lineHeight (computedStyle w (element this)) = "normal" ->
  actualBoundingBoxAscent (metrics this) = VUndefined
  \/ actualBoundingBoxDescent (metrics this) = VUndefined ->
  getElementLineHeight this w tr
  = (Return nan, (tr ++ [GetComputedStyle (element this)])%list)
  /\ nan <> 1.
Proof.
  intros Hlh Hgap. split.
  - run. rewrite Hlh. unfold JS.add.
    destruct Hgap as [H | H]; rewrite H; cbn [ToNumber].
    + rewrite float_add_nan_l, float_div_nan_l, float_mul_nan_l. reflexivity.
    + rewrite float_add_nan_r, float_div_nan_l, float_mul_nan_l. reflexivity.
  - intros H. apply (f_equal PrimFloat.is_nan) in H. discriminate H.
Qed.

Lemma C6_normal_line_height_unmeasured_witness :
  getElementLineHeight (demo_helper unsupported)
                       (demo_browser "48px" "normal" unsupported) []
  = (Return nan, [GetComputedStyle demo_node])
  /\ nan <> 1.
Proof.
  apply (C6_normal_line_height_unmeasured (demo_helper unsupported)).
  - reflexivity.
  - left. reflexivity.
Defined.

(** C8: the object [getMetrics()] returns holds, as [minLineHeight] and
    [currentLineHeight], the values [getMinLineHeight()] and
    [getElementLineHeight()] return in the same browser state, and as
    [ascent] and [descent] the measurement's own properties, [undefined]
    where the measurement has none. *)
Theorem C8_metrics_snapshot
    (this : TextMetricsHelper) (w : Browser) (tr : list event) :
  exists snapshot tr',
    getMetrics this w tr = (Return snapshot, tr')
    /\ (forall t, fst (getMinLineHeight this w t)
                  = Return (m_minLineHeight snapshot))
    /\ (forall t, fst (getElementLineHeight this w t)
                  = Return (m_currentLineHeight snapshot))
    /\ m_ascent snapshot = actualBoundingBoxAscent (metrics this)
    /\ m_descent snapshot = actualBoundingBoxDescent (metrics this)
    /\ m_fontSize snapshot = fontSize this.
Proof.
  run.
  destruct (is_undefined _ || is_undefined _);
    destruct (String.eqb _ _);
    do 2 eexists; repeat split; reflexivity.
Qed.

(** C9: constructing with [null] or with no element throws at once: no
    instance is returned and nothing has been asked of the browser, the
    canvas measurement included. *)
Theorem C9_constructor_without_target
    (referenceText : option string) (w : Browser) (tr : list event) :
  constructor TNull referenceText w tr = (Throw (Error no_element_message), tr)
  /\ constructor TUndefined referenceText w tr
     = (Throw (Error no_element_message), tr)
  /\ (forall this tr',
        constructor TNull referenceText w tr <> (Return this, tr')
        /\ constructor TUndefined referenceText w tr <> (Return this, tr')).
Proof.
  repeat split; try reflexivity; discriminate.
Qed.

(** C10: with [lineCount] left out it is 1: [getHeightForLines()] returns
    [getElementLineHeight() * fontSize] and [getMinHeightForLines()]
    returns [getMinLineHeight() * fontSize]. *)
Theorem C10_default_line_count
    (this : TextMetricsHelper) (w : Browser) (tr : list event) :
  (exists current tr',
     getElementLineHeight this w tr = (Return current, tr')
     /\ getHeightForLines this None None w tr
        = (Return (current * fontSize this), tr'))
  /\ (exists minLH tr',
        getMinLineHeight this w tr = (Return minLH, tr')
        /\ getMinHeightForLines this None w tr
           = (Return (minLH * fontSize this), tr')).
Proof.
  split.
  - destruct (getElementLineHeight_returns this w tr) as [current Hcur].
    exists current. eexists. split; [exact Hcur|].
    unfold getHeightForLines, bind, ret. rewrite Hcur, float_mul_1_r.
    reflexivity.
  - destruct (getMinLineHeight_returns this w tr) as [tr' Hmin].
    exists (minLineHeight_value this), tr'. split; [exact Hmin|].
    unfold getMinHeightForLines, getHeightForLines, bind, ret.
    rewrite Hmin, float_mul_1_r. reflexivity.
Qed.

(** ** What an instance sees of its element *)

Lemma getElementLineHeight_reads_line_height this w1 w2 tr :
  style_lineHeight (computedStyle w1 (element this))
  = style_lineHeight (computedStyle w2 (element this)) ->
  getElementLineHeight this w1 tr = getElementLineHeight this w2 tr.
Proof.
  intros H. run. rewrite H. destruct (String.eqb _ _); reflexivity.
Qed.

(** [getMinLineHeight] uses nothing of the browser. *)
Lemma getMinLineHeight_reads_nothing this w1 w2 tr :
  getMinLineHeight this w1 tr = getMinLineHeight this w2 tr.
Proof.
  run. destruct (is_undefined _ || is_undefined _); reflexivity.
Qed.

(** C7, as amended: [fontSize] and the measurement are those of the
    construction, but [getElementLineHeight()] (and with it [getMetrics()]
    and [getHeightForLines] with [lineHeight] left out) reads the element's
    computed [line-height] at each call.  Two calls of one of these answer
    the same (the same value, the same events logged) whenever that
    [line-height] is the same at both, whatever else has changed on the
    page and whatever was logged before.  [getMinLineHeight()],
    [getMinHeightForLines] and [getHeightForLines] with a given
    [lineHeight] answer the same in any two pages: they observe no change
    of style at all, the line height included. *)
Theorem C7_accessors_follow_line_height
    (this : TextMetricsHelper) (w1 w2 : Browser) (t1 t2 : list event) :
  (style_lineHeight (computedStyle w1 (element this))
   = style_lineHeight (computedStyle w2 (element this)) ->
   same_answer (getElementLineHeight this) w1 w2 t1 t2
   /\ same_answer (getMetrics this) w1 w2 t1 t2
   /\ (forall lineCount,
         same_answer (getHeightForLines this lineCount None) w1 w2 t1 t2))
  /\ same_answer (getMinLineHeight this) w1 w2 t1 t2
  /\ (forall lineCount,
        same_answer (getMinHeightForLines this lineCount) w1 w2 t1 t2)
  /\ (forall lineCount lh,
        same_answer (getHeightForLines this lineCount (Some lh)) w1 w2 t1 t2).
Proof.
  unfold same_answer.
  split; [ intros H; repeat split | repeat split ].
  - run. rewrite H. destruct (String.eqb _ _); same_ext this.
  - run. rewrite H.
    destruct (is_undefined _ || is_undefined _); destruct (String.eqb _ _);
      cbv beta iota; same_ext this.
  - intros lineCount. run. rewrite H.
    destruct (String.eqb _ _); cbv beta iota; same_ext this.
  - run. destruct (is_undefined _ || is_undefined _); same_ext this.
  - intros lineCount. run.
    destruct (is_undefined _ || is_undefined _); cbv beta iota; same_ext this.
  - intros lineCount lh. run. same_ext this.
Qed.

Lemma C7_accessors_follow_line_height_witness :
  same_answer (getElementLineHeight (demo_helper (measured 40 8)))
    (demo_browser "48px" "57.6px" (measured 40 8))
    (demo_browser "12px" "57.6px" unsupported)
    [] [ConsoleWarn fallback_message]
  /\ same_answer (getMinLineHeight (demo_helper (measured 40 8)))
       (demo_browser "48px" "57.6px" (measured 40 8))
       (demo_browser "12px" "normal" unsupported)
       [] [ConsoleWarn fallback_message].
Proof.
  split.
  - apply (C7_accessors_follow_line_height (demo_helper (measured 40 8))
             (demo_browser "48px" "57.6px" (measured 40 8))
             (demo_browser "12px" "57.6px" unsupported)).
    reflexivity.
  - apply (C7_accessors_follow_line_height (demo_helper (measured 40 8))
             (demo_browser "48px" "57.6px" (measured 40 8))
             (demo_browser "12px" "normal" unsupported)).
Defined.

(** C7, as stated, fails: an instance built while the element has
    [line-height: normal] answers 1.1, and 1.2 once the element's
    [line-height] has become [57.6px]. *)
Lemma C7_style_change_is_observed :
  exists this tr,
    constructor (TElement demo_node) None
      (demo_browser "48px" "normal" (measured 40 8)) [] = (Return this, tr)
    /\ fst (getElementLineHeight this
              (demo_browser "48px" "normal" (measured 40 8)) tr) = Return 1.1
    /\ fst (getElementLineHeight this
              (demo_browser "48px" "57.6px" (measured 40 8)) tr) = Return 1.2
    /\ 1.1 <> 1.2.
Proof.
  exists (demo_helper (measured 40 8)). eexists.
  split; [apply constructor_demo|].
  split; [reflexivity|]. split; [reflexivity|].
  apply float_neq_by_eqb; reflexivity.
Qed.

(** ** Remarks on the arithmetic *)

(** [x === x] fails for [NaN] only: the equalities above are identities of
    values, which [===] confirms whenever the value is a number. *)
Remark strict_eq_refl (x : float) :
  JS.strict_eq x x = negb (PrimFloat.is_nan x).
Proof. unfold JS.strict_eq, PrimFloat.is_nan. rewrite negb_involutive. reflexivity. Qed.

(** The doubling law of [getHeightForLines] is about line counts: for an
    [n] that is no integer a product in the subnormal range is rounded
    before it is doubled, and above [2 ^ 1023] the double of [n] is no
    number any more. *)
Remark doubling_outside_line_counts :
  isPositiveInteger 1.5 = false
  /\ 0x1p-1074 * (2 * 1.5) = 0x1.8p-1073
  /\ 2 * (0x1p-1074 * 1.5) = 0x1p-1072
  /\ isPositiveInteger 0x1p1023 = true
  /\ 2 * 0x1p1023 = infinity
  /\ isPositiveInteger (2 * 0x1p1023) = false.
Proof. repeat split; reflexivity. Qed.

(** * Further properties of the class *)

(** ** More facts about binary64 arithmetic *)

Module Binary64Algebra.
Import Binary64 Binary64Facts.
Local Open Scope Z_scope.

(** Multiplication commutes. *)
Lemma SFmul_comm (x y : spec_float) : SF64mul x y = SF64mul y x.
Proof.
  unfold SF64mul.
  destruct x as [sx|sx| |sx mx ex], y as [sy|sy| |sy my ey]; cbn [SFmul];
    try reflexivity; try (rewrite (xorb_comm sx sy); reflexivity).
  rewrite (xorb_comm sx sy), (Pos.mul_comm mx my), (Z.add_comm ex ey). reflexivity.
Qed.

(** Rounding is symmetric in the sign. *)
Lemma binary_round_aux_opp (s : bool) (m e : Z) (l : location) :
  binary_round_aux prec emax (negb s) m e l
  = SFopp (binary_round_aux prec emax s m e l).
Proof.
  unfold binary_round_aux.
  destruct (shr_fexp prec emax m e l) as [mrs' e'].
  destruct (shr_fexp prec emax _ e' loc_Exact) as [mrs'' e''].
  destruct (shr_m mrs'') as [|p|p]; try reflexivity.
  destruct (e'' <=? emax - prec); reflexivity.
Qed.

(** So negating a factor negates the product. *)
Lemma SFmul_opp_r (x y : spec_float) :
  SF64mul x (SFopp y) = SFopp (SF64mul x y).
Proof.
  unfold SF64mul.
  destruct x as [sx|sx| |sx mx ex], y as [sy|sy| |sy my ey];
    try reflexivity; try (destruct sx, sy; reflexivity).
  change (SFopp (S754_finite sy my ey)) with (S754_finite (negb sy) my ey).
  cbn [SFmul]. rewrite <- negb_xorb_r. apply binary_round_aux_opp.
Qed.

(** A finite value other than zero divided by itself is one. *)
Lemma SFdiv_same (s : bool) (m : positive) (e : Z) :
  SF64div (S754_finite s m e) (S754_finite s m e) = one.
Proof.
  unfold SF64div, SFdiv, SFdiv_core_binary.
  replace (Zdigits2 (Z.pos m) + e - (Zdigits2 (Z.pos m) + e)) with 0 by lia.
  replace (e - e) with 0 by lia.
  change (Z.min (fexp prec emax 0) 0) with (-53).
  change (0 - -53) with 53.
  cbv iota beta.
  rewrite Z.shiftl_mul_pow2 by lia.
  assert (H : Z.div_eucl (Z.pos m * 2 ^ 53) (Z.pos m) = (2 ^ 53, 0)).
  { pose proof (Z_div_mod (Z.pos m * 2 ^ 53) (Z.pos m) ltac:(lia)) as Hdm.
    destruct (Z.div_eucl (Z.pos m * 2 ^ 53) (Z.pos m)) as [q r].
    destruct Hdm as [Heq Hr].
    assert (q = 2 ^ 53 /\ r = 0) as [-> ->]; [ | reflexivity ].
    assert (Hq : Z.pos m * (2 ^ 53 - q) = r) by lia.
    assert (2 ^ 53 - q = 0) by nia. split; nia. }
  rewrite H. rewrite xorb_nilpotent.
  replace (new_location (Z.pos m) 0) with loc_Exact.
  - reflexivity.
  - unfold new_location, new_location_even, new_location_odd.
    destruct (Z.even (Z.pos m)); reflexivity.
Qed.

End Binary64Algebra.

(** The same on JavaScript numbers. *)
Lemma float_mul_comm (x y : float) : x * y = y * x.
Proof. apply Prim2SF_inj. rewrite !mul_spec. apply Binary64Algebra.SFmul_comm. Qed.

Lemma float_mul_1_l (x : float) : 1 * x = x.
Proof. rewrite float_mul_comm. apply float_mul_1_r. Qed.

Lemma float_mul_nan_r (x : float) : x * nan = nan.
Proof. rewrite float_mul_comm. apply float_mul_nan_l. Qed.

Lemma float_mul_opp_r (x y : float) : x * (- y) = - (x * y).
Proof.
  apply Prim2SF_inj. rewrite mul_spec, !opp_spec, mul_spec.
  apply Binary64Algebra.SFmul_opp_r.
Qed.

Lemma float_div_same (x : float) : isNonzeroNumber x = true -> x / x = 1.
Proof.
  unfold isNonzeroNumber. intros H. apply Prim2SF_inj. rewrite div_spec, Prim2SF_one.
  destruct (Prim2SF x) as [s|s| |s m e]; try discriminate H.
  apply Binary64Algebra.SFdiv_same.
Qed.

Module Binary64Order.
Import Binary64 Binary64Facts.
Local Open Scope Z_scope.

(** Shifting right is dividing by a power of two and forgetting the rest. *)
Lemma shr_1_div2 (mrs : shr_record) :
  0 <= shr_m mrs -> shr_m (shr_1 mrs) = shr_m mrs / 2.
Proof.
  destruct mrs as [m r s]. cbn [shr_m]. intros Hm. rewrite <- Z.div2_div.
  destruct m as [|[p|p|]|p]; try reflexivity. lia.
Qed.

Lemma shr_m_iter (p : positive) :
  forall mrs, 0 <= shr_m mrs ->
    shr_m (iter_pos shr_1 p mrs) = shr_m mrs / 2 ^ Zpos p.
Proof.
  induction p as [p IH | p IH | ]; intros mrs Hm; cbn [iter_pos].
  - assert (H1 : 0 <= shr_m (shr_1 mrs)).
    { rewrite shr_1_div2 by assumption. apply Z.div_pos; lia. }
    assert (Hp : 0 < 2 ^ Zpos p) by (apply Z.pow_pos_nonneg; lia).
    assert (H2 : 0 <= shr_m (iter_pos shr_1 p (shr_1 mrs))).
    { rewrite IH by assumption. apply Z.div_pos; lia. }
    rewrite IH, IH, shr_1_div2 by assumption.
    rewrite !Z.div_div by lia. rewrite pow2_xI. f_equal; ring.
  - assert (Hp : 0 < 2 ^ Zpos p) by (apply Z.pow_pos_nonneg; lia).
    assert (H2 : 0 <= shr_m (iter_pos shr_1 p mrs)).
    { rewrite IH by assumption. apply Z.div_pos; lia. }
    rewrite IH, IH by assumption.
    rewrite Z.div_div by lia. rewrite pow2_xO. reflexivity.
  - rewrite Z.pow_1_r. apply shr_1_div2. assumption.
Qed.

(** Rounding to nearest does not go below the truncated mantissa. *)
Lemma round_nearest_even_ge (m : Z) (l : location) :
  m <= round_nearest_even m l.
Proof.
  destruct l as [|[| |]]; cbn [round_nearest_even]; try lia.
  destruct (Z.even m); lia.
Qed.

(** The order on finite values above zero: first the exponent, then the
    mantissa. *)
Lemma SFleb_finite_infinity (m : positive) (e : Z) :
  SFleb (S754_finite false m e) (S754_infinity false) = true.
Proof. reflexivity. Qed.

Lemma SFleb_finite (m m' : positive) (e e' : Z) :
  e <= e' -> (e' = e -> (m <= m')%positive) ->
  SFleb (S754_finite false m e) (S754_finite false m' e') = true.
Proof.
  intros He Hm. unfold SFleb, SFcompare.
  destruct (Z.compare_spec e e') as [Heq|Hlt|Hgt]; [ | reflexivity | lia ].
  specialize (Hm (eq_sym Heq)).
  change (Pos.compare_cont Eq m m') with (Pos.compare m m').
  destruct (Pos.compare_spec m m'); try reflexivity. lia.
Qed.

(** Finishing a positive mantissa at an exponent not below that of a
    canonical value, and not below its mantissa at the same exponent,
    gives at least that value. *)
Lemma finish_ge (m : positive) (e : Z) (m1 e' : Z) :
  -1074 <= e -> e <= e' -> 0 < m1 -> (e' = e -> Zpos m <= m1) ->
  SFleb (S754_finite false m e) (finish false m1 e') = true.
Proof.
  intros Hemin He Hm1 Hsame.
  destruct m1 as [|q|q]; try lia.
  unfold finish, shr_fexp, shr. cbn [Zdigits2 shr_record_of_loc].
  pose proof (digits2_pos_bounds q) as [Blo Bhi].
  destruct (fexp prec emax (Z.pos (digits2_pos q) + e') - e') as [|p|p] eqn:Hn;
    cbn [shr_m].
  - change (emax - prec) with 971.
    destruct (e' <=? 971); [ | reflexivity ].
    apply SFleb_finite; [assumption | intros H; specialize (Hsame H); lia].
  - rewrite shr_m_iter by (cbn; lia). cbn [shr_m].
    assert (Hp : Z.pos p = Z.pos (digits2_pos q) - 53) by (b64; lia).
    assert (Hpow : 0 < 2 ^ Z.pos p) by (apply Z.pow_pos_nonneg; lia).
    assert (Hq : 2 ^ 52 <= Z.pos q / 2 ^ Z.pos p).
    { apply Z.div_le_lower_bound; [lia|].
      rewrite <- Z.pow_add_r by lia.
      replace (Z.pos p + 52) with (Z.pos (digits2_pos q) - 1) by lia. lia. }
    assert (0 < 2 ^ 52) by (apply Z.pow_pos_nonneg; lia).
    destruct (Z.pos q / 2 ^ Z.pos p) as [|q'|q']; try lia.
    change (emax - prec) with 971.
    destruct (e' + Z.pos p <=? 971); [ | reflexivity ].
    apply SFleb_finite; lia.
  - change (emax - prec) with 971.
    destruct (e' <=? 971); [ | reflexivity ].
    apply SFleb_finite; [assumption | intros H; specialize (Hsame H); lia].
Qed.

(** A non-negative finite value does not shrink when multiplied by 1.1. *)
Lemma SFmul_eleven_tenths_ge (m : positive) (e : Z) :
  canonical m e ->
  SFleb (S754_finite false m e)
        (SF64mul (S754_finite false m e) eleven_tenths) = true.
Proof.
  intros Hc. pose proof (canonical_emin m e Hc) as Hemin.
  unfold SF64mul, eleven_tenths. cbn [SFmul xorb].
  rewrite binary_round_aux_finish.
  set (M := (m * 4953959590107546)%positive).
  assert (HM : Z.pos M = Z.pos m * 4953959590107546) by (subst M; lia).
  pose proof (digits2_pos_bounds m) as [mlo mhi].
  pose proof (digits2_pos_bounds M) as [Mlo Mhi].
  assert (Hd : Z.pos (digits2_pos m) + 52 <= Z.pos (digits2_pos M)).
  { destruct (Z_lt_le_dec (Z.pos (digits2_pos M)) (Z.pos (digits2_pos m) + 52)) as [Hlt|]; [exfalso|assumption].
    assert (2 ^ Z.pos (digits2_pos M) <= 2 ^ (Z.pos (digits2_pos m) - 1 + 52))
      by (apply Z.pow_le_mono_r; lia).
    rewrite Z.pow_add_r in H by lia.
    change (2 ^ 52) with 4503599627370496 in H. nia. }
  unfold shr_fexp, shr. cbn [Zdigits2 shr_record_of_loc].
  unfold canonical in Hc.
  destruct (fexp prec emax (Z.pos (digits2_pos M) + (e + -52)) - (e + -52)) as [|p|p] eqn:Hn;
    try (exfalso; b64; lia).
  cbn [fst snd].
  assert (Hq : 0 <= Z.pos M / 2 ^ Z.pos p) by (apply Z.div_pos; [lia | apply Z.pow_pos_nonneg; lia]).
  assert (Hpow : 0 < 2 ^ Z.pos p) by (apply Z.pow_pos_nonneg; lia).
  pose proof (round_nearest_even_ge
                (shr_m (iter_pos shr_1 p {| shr_m := Z.pos M; shr_r := false; shr_s := false |}))
                (loc_of_shr_record (iter_pos shr_1 p {| shr_m := Z.pos M; shr_r := false; shr_s := false |})))
    as Hr.
  rewrite shr_m_iter in Hr at 1 by (cbn; lia). cbn [shr_m] in Hr.
  assert (Hpos : 0 < Z.pos M / 2 ^ Z.pos p
                 /\ (e + -52 + Z.pos p = e -> Z.pos m <= Z.pos M / 2 ^ Z.pos p)).
  { destruct (Z.eq_dec (Z.pos p) 52) as [H52|H52].
    - rewrite H52. change (2 ^ 52) with 4503599627370496.
      assert (Z.pos m <= Z.pos M / 4503599627370496)
        by (apply Z.div_le_lower_bound; lia).
      lia.
    - assert (Hp : Z.pos p = Z.pos (digits2_pos M) - 53) by (b64; lia).
      split; [ | lia ].
      assert (2 ^ 52 <= Z.pos M / 2 ^ Z.pos p).
      { apply Z.div_le_lower_bound; [lia|].
        rewrite <- Z.pow_add_r by lia.
        replace (Z.pos p + 52) with (Z.pos (digits2_pos M) - 1) by lia. lia. }
      assert (0 < 2 ^ 52) by (apply Z.pow_pos_nonneg; lia). lia. }
  apply finish_ge; [assumption | b64; lia | lia | ].
  intros Hsame. destruct Hpos as [_ Hpos]. specialize (Hpos Hsame). lia.
Qed.

End Binary64Order.

Lemma Prim2SF_eleven_tenths : Prim2SF 1.1 = eleven_tenths.
Proof. reflexivity. Qed.

(** [x <= x * 1.1] for every number [x >= 0] (zero and infinity too). *)
Lemma float_mul_eleven_tenths_ge (x : float) :
  (0 <=? x) = true -> (x <=? x * 1.1) = true.
Proof.
  rewrite !leb_spec, mul_spec, Prim2SF_eleven_tenths.
  change (Prim2SF 0) with (S754_zero false).
  pose proof (Prim2SF_valid x) as Hv.
  destruct (Prim2SF x) as [s|s| |s m e]; intros H0.
  - destruct s; reflexivity.
  - destruct s; [discriminate H0 | reflexivity].
  - discriminate H0.
  - destruct s; [discriminate H0|].
    apply Binary64Facts.valid_finite in Hv as [Hc _].
    apply Binary64Order.SFmul_eleven_tenths_ge, Hc.
Qed.

(** ** What the accessors do to the outside *)

(** X1: no accessor throws, and none touches the canvas again: each
    returns a value and adds to the trace at most the fallback warning and
    one read of its own element's computed style. *)
Theorem X1_accessors_return_and_keep_off_canvas
    (this : TextMetricsHelper) (w : Browser) (tr : list event)
    (lineCount lineHeight : option float) :
  (exists v ext,
     getMinLineHeight this w tr = (Return v, (tr ++ ext)%list)
     /\ In ext (accessor_traces this))
  /\ (exists v ext,
        getElementLineHeight this w tr = (Return v, (tr ++ ext)%list)
        /\ In ext (accessor_traces this))
  /\ (exists v ext,
        getHeightForLines this lineCount lineHeight w tr
        = (Return v, (tr ++ ext)%list)
        /\ In ext (accessor_traces this))
  /\ (exists v ext,
        getMinHeightForLines this lineCount w tr = (Return v, (tr ++ ext)%list)
        /\ In ext (accessor_traces this))
  /\ (exists v ext,
        getMetrics this w tr = (Return v, (tr ++ ext)%list)
        /\ In ext (accessor_traces this)).
Proof.
  repeat split; run.
  - destruct (is_undefined _ || is_undefined _); eexists; ext_of this.
  - destruct (String.eqb _ _); eexists; ext_of this.
  - destruct lineHeight as [lh|]; [ | destruct (String.eqb _ _) ];
      cbv beta iota; eexists; ext_of this.
  - destruct (is_undefined _ || is_undefined _); cbv beta iota;
      eexists; ext_of this.
  - destruct (is_undefined _ || is_undefined _); destruct (String.eqb _ _);
      cbv beta iota; eexists; ext_of this.
Qed.

(** ** From the page to the minimal line height *)

(** X2: constructing on an element never throws, and the instance answers
    [getMinLineHeight()] from what the page was at that moment, the
    reference text (["ÄyG|?"] when none is given) measured in the element's
    font over the element's font size, or 1 without bounding boxes,
    whatever the page has become at the time of the call. *)
Theorem X2_constructed_min_line_height
    (el : node) (text : option string) (w : Browser) (tr : list event) :
  exists this tr',
    constructor (TElement el) text w tr = (Return this, tr')
    /\ element this = el
    /\ fontSize this = parseFloat (style_fontSize (computedStyle w el))
    /\ forall (w' : Browser) (t : list event),
         fst (getMinLineHeight this w' t)
         = Return (measured_minLineHeight w el text).
Proof.
  do 2 eexists. split; [apply constructor_element|].
  cbv zeta. split; [reflexivity|]. split; [reflexivity|].
  intros w' t. unfold measured_minLineHeight, getMinLineHeight.
  cbn [metrics fontSize].
  destruct (actualBoundingBoxAscent _) as [|ascent];
    destruct (actualBoundingBoxDescent _) as [|descent]; reflexivity.
Qed.

(** ** Without bounding boxes *)

(** X3: when ascent or descent is missing from the measurement,
    [getMinHeightForLines(n)] is [fontSize * n] exactly ([fontSize] when
    [n] is left out), with one warning on the console. *)
Theorem X3_min_height_without_bounding_boxes
    (this : TextMetricsHelper) (w : Browser) (tr : list event) (n : float) :
  actualBoundingBoxAscent (metrics this) = VUndefined
  \/ actualBoundingBoxDescent (metrics this) = VUndefined ->
  getMinHeightForLines this (Some n) w tr
  = (Return (fontSize this * n), (tr ++ [ConsoleWarn fallback_message])%list)
  /\ getMinHeightForLines this None w tr
     = (Return (fontSize this), (tr ++ [ConsoleWarn fallback_message])%list).
Proof.
  intros Hgap.
  assert (Hmin : getMinLineHeight this w tr
                 = (Return 1, (tr ++ [ConsoleWarn fallback_message])%list)).
  { unfold getMinLineHeight. destruct Hgap as [H | H]; rewrite H.
    - reflexivity.
    - destruct (actualBoundingBoxAscent (metrics this)); reflexivity. }
  unfold getMinHeightForLines, getHeightForLines, bind, ret. rewrite Hmin.
  rewrite float_mul_1_l, float_mul_1_r. split; reflexivity.
Qed.

Lemma X3_min_height_without_bounding_boxes_witness :
  getMinHeightForLines (demo_helper unsupported) (Some 3)
    (demo_browser "48px" "normal" unsupported) []
  = (Return 144, [ConsoleWarn fallback_message]).
Proof.
  apply (X3_min_height_without_bounding_boxes (demo_helper unsupported)).
  left. reflexivity.
Defined.

(** X4: with [line-height: normal] and ascent or descent missing, the
    [NaN] of the estimate reaches the callers: [getHeightForLines] with
    [lineHeight] left out returns [NaN] for every line count, and
    [getMetrics()] reports a [currentLineHeight] of [NaN] beside a
    [minLineHeight] of 1. *)
Theorem X4_nan_reaches_heights_and_metrics
    (this : TextMetricsHelper) (w : Browser) (tr : list event)
    (lineCount : option float) :
  style_lineHeight (computedStyle w (element this)) = "normal" ->
  actualBoundingBoxAscent (metrics this) = VUndefined
  \/ actualBoundingBoxDescent (metrics this) = VUndefined ->
  getHeightForLines this lineCount None w tr
  = (Return nan, (tr ++ [GetComputedStyle (element this)])%list)
  /\ exists snapshot,
       getMetrics this w tr
       = (Return snapshot,
          (tr ++ [ConsoleWarn fallback_message;
                  GetComputedStyle (element this)])%list)
       /\ m_minLineHeight snapshot = 1
       /\ m_currentLineHeight snapshot = nan.
Proof.
  intros Hlh Hgap.
  assert (Hcur : forall t, getElementLineHeight this w t
                 = (Return nan, (t ++ [GetComputedStyle (element this)])%list)).
  { intros t. run. rewrite Hlh. unfold JS.add.
    destruct Hgap as [H | H]; rewrite H; cbn [ToNumber].
    - rewrite float_add_nan_l, float_div_nan_l, float_mul_nan_l. reflexivity.
    - rewrite float_add_nan_r, float_div_nan_l, float_mul_nan_l. reflexivity. }
  assert (Hmin : getMinLineHeight this w tr
                 = (Return 1, (tr ++ [ConsoleWarn fallback_message])%list)).
  { unfold getMinLineHeight. destruct Hgap as [H | H]; rewrite H.
    - reflexivity.
    - destruct (actualBoundingBoxAscent (metrics this)); reflexivity. }
  split.
  - unfold getHeightForLines, bind, ret. rewrite Hcur.
    rewrite !float_mul_nan_l. reflexivity.
  - eexists. unfold getMetrics, bind, ret. rewrite Hmin, Hcur, <- app_assoc.
    split; [reflexivity|]. split; reflexivity.
Qed.

Lemma X4_nan_reaches_heights_and_metrics_witness :
  getHeightForLines (demo_helper unsupported) (Some 2) None
    (demo_browser "48px" "normal" unsupported) []
  = (Return nan, [GetComputedStyle demo_node]).
Proof.
  apply (X4_nan_reaches_heights_and_metrics (demo_helper unsupported)).
  - reflexivity.
  - left. reflexivity.
Defined.

(** ** Line counts *)

(** X5: the doubling law holds for the other two ways to ask for a height:
    for line counts [n] and [2 * n], both positive integers,
    [getMinHeightForLines(2 * n)] is exactly twice [getMinHeightForLines(n)],
    and so is [getHeightForLines(2 * n)] with [lineHeight] left out, in the
    same state of the page. *)
Theorem X5_doubling_min_and_current
    (this : TextMetricsHelper) (w : Browser) (tr : list event) (n : float) :
  isPositiveInteger n = true -> isPositiveInteger (2 * n) = true ->
  (exists height tr',
     getMinHeightForLines this (Some n) w tr = (Return height, tr')
     /\ getMinHeightForLines this (Some (2 * n)) w tr
        = (Return (2 * height), tr'))
  /\ (exists height tr',
        getHeightForLines this (Some n) None w tr = (Return height, tr')
        /\ getHeightForLines this (Some (2 * n)) None w tr
           = (Return (2 * height), tr')).
Proof.
  intros Hn H2n. split.
  - destruct (getMinLineHeight_returns this w tr) as [tr' Hmin].
    do 2 eexists.
    unfold getMinHeightForLines, getHeightForLines, bind, ret. rewrite Hmin.
    split; [reflexivity|].
    rewrite (float_mul_double _ n Hn H2n). reflexivity.
  - destruct (getElementLineHeight_returns this w tr) as [current Hcur].
    do 2 eexists.
    unfold getHeightForLines, bind, ret. rewrite Hcur.
    split; [reflexivity|].
    rewrite (float_mul_double _ n Hn H2n). reflexivity.
Qed.

Lemma X5_doubling_min_and_current_witness :
  exists height tr',
    getMinHeightForLines (demo_helper (measured 40 8)) (Some 3)
      (demo_browser "48px" "57.6px" (measured 40 8)) [] = (Return height, tr')
    /\ getMinHeightForLines (demo_helper (measured 40 8)) (Some (2 * 3))
         (demo_browser "48px" "57.6px" (measured 40 8)) []
       = (Return (2 * height), tr').
Proof.
  apply (X5_doubling_min_and_current (demo_helper (measured 40 8))
           (demo_browser "48px" "57.6px" (measured 40 8)) [] 3);
    reflexivity.
Defined.

(** X6: a negated line count negates the height, exactly and for every
    number [n]: [getHeightForLines(-n, ...)] is [-getHeightForLines(n, ...)]
    with [lineHeight] given or left out, and the same for
    [getMinHeightForLines]. *)
Theorem X6_negated_line_count
    (this : TextMetricsHelper) (w : Browser) (tr : list event)
    (n : float) (lineHeight : option float) :
  (exists height tr',
     getHeightForLines this (Some n) lineHeight w tr = (Return height, tr')
     /\ getHeightForLines this (Some (- n)) lineHeight w tr
        = (Return (- height), tr'))
  /\ (exists height tr',
        getMinHeightForLines this (Some n) w tr = (Return height, tr')
        /\ getMinHeightForLines this (Some (- n)) w tr
           = (Return (- height), tr')).
Proof.
  split.
  - destruct lineHeight as [lh|].
    + do 2 eexists. unfold getHeightForLines, bind, ret.
      split; [reflexivity|]. rewrite float_mul_opp_r. reflexivity.
    + destruct (getElementLineHeight_returns this w tr) as [current Hcur].
      do 2 eexists. unfold getHeightForLines, bind, ret. rewrite Hcur.
      split; [reflexivity|]. rewrite float_mul_opp_r. reflexivity.
  - destruct (getMinLineHeight_returns this w tr) as [tr' Hmin].
    do 2 eexists.
    unfold getMinHeightForLines, getHeightForLines, bind, ret. rewrite Hmin.
    split; [reflexivity|]. rewrite float_mul_opp_r. reflexivity.
Qed.

(** ** The estimate and the minimum *)

(** X7: with [line-height: normal] and a measurement that reports ascent
    and descent, [getElementLineHeight()] is [getMinLineHeight() * 1.1],
    and it is not below [getMinLineHeight()] whenever that is a number not
    below zero: the estimated line box does not clip the reference text. *)
Theorem X7_estimate_covers_minimum
    (this : TextMetricsHelper) (ascent descent : float)
    (w : Browser) (tr : list event) :
  style_lineHeight (computedStyle w (element this)) = "normal" ->
  actualBoundingBoxAscent (metrics this) = VNumber ascent ->
  actualBoundingBoxDescent (metrics this) = VNumber descent ->
  exists minLH current,
    fst (getMinLineHeight this w tr) = Return minLH
    /\ fst (getElementLineHeight this w tr) = Return current
    /\ current = minLH * 1.1
    /\ ((0 <=? minLH) = true -> (minLH <=? current) = true).
Proof.
  intros Hlh Ha Hd.
  exists ((ascent + descent) / fontSize this),
         ((ascent + descent) / fontSize this * 1.1).
  split; [ unfold getMinLineHeight; rewrite Ha, Hd; reflexivity | ].
  split; [ run; rewrite Hlh, Ha, Hd; reflexivity | ].
  split; [reflexivity|].
  apply float_mul_eleven_tenths_ge.
Qed.

Lemma X7_estimate_covers_minimum_witness :
  exists minLH current,
    fst (getMinLineHeight (demo_helper (measured 40 8))
           (demo_browser "48px" "normal" (measured 40 8)) []) = Return minLH
    /\ fst (getElementLineHeight (demo_helper (measured 40 8))
              (demo_browser "48px" "normal" (measured 40 8)) [])
       = Return current
    /\ current = minLH * 1.1
    /\ ((0 <=? minLH) = true -> (minLH <=? current) = true).
Proof.
  apply (X7_estimate_covers_minimum (demo_helper (measured 40 8)) 40 8);
    reflexivity.
Defined.

(** X8: when the element's computed [line-height] is the length its font
    size was at construction (as for [line-height: 1]), and that is a
    number other than zero, [getElementLineHeight()] is exactly 1 and
    [getHeightForLines(n)] is [fontSize * n]. *)
Theorem X8_line_height_equal_to_font_size
    (this : TextMetricsHelper) (w : Browser) (tr : list event) (n : float) :
  style_lineHeight (computedStyle w (element this)) <> "normal" ->
  parseFloat (style_lineHeight (computedStyle w (element this)))
  = fontSize this ->
  isNonzeroNumber (fontSize this) = true ->
  getElementLineHeight this w tr
  = (Return 1, (tr ++ [GetComputedStyle (element this)])%list)
  /\ getHeightForLines this (Some n) None w tr
     = (Return (fontSize this * n),
        (tr ++ [GetComputedStyle (element this)])%list).
Proof.
  intros Hlh Hsame Hnum.
  assert (Hcur : getElementLineHeight this w tr
                 = (Return 1, (tr ++ [GetComputedStyle (element this)])%list)).
  { run. apply String.eqb_neq in Hlh. rewrite Hlh, Hsame.
    rewrite (float_div_same _ Hnum). reflexivity. }
  split; [exact Hcur|].
  unfold getHeightForLines, bind, ret. rewrite Hcur, float_mul_1_l.
  reflexivity.
Qed.

Lemma X8_line_height_equal_to_font_size_witness :
  getElementLineHeight (demo_helper (measured 40 8))
    (demo_browser "48px" "48px" (measured 40 8)) []
  = (Return 1, [GetComputedStyle demo_node])
  /\ getHeightForLines (demo_helper (measured 40 8)) (Some 3) None
       (demo_browser "48px" "48px" (measured 40 8)) []
     = (Return 144, [GetComputedStyle demo_node]).
Proof.
  apply (X8_line_height_equal_to_font_size (demo_helper (measured 40 8))
           (demo_browser "48px" "48px" (measured 40 8)) [] 3).
  - discriminate.
  - reflexivity.
  - reflexivity.
Defined.

(** X9: a line count of zero gives a height of zero (of either sign) when
    [lineHeight * fontSize] is a finite number, and [NaN] when it is
    infinite or [NaN]; nothing is thrown. *)
Theorem X9_zero_line_count
    (this : TextMetricsHelper) (w : Browser) (tr : list event) (lh : float) :
  exists height,
    getHeightForLines this (Some 0) (Some lh) w tr = (Return height, tr)
    /\ (isFiniteNumber (lh * fontSize this) = true -> abs height = 0)
    /\ (isFiniteNumber (lh * fontSize this) = false -> height = nan).
Proof.
  eexists. split; [reflexivity|]. unfold isFiniteNumber.
  split; intros H; apply Prim2SF_inj; rewrite ?abs_spec, mul_spec;
    change (Prim2SF 0) with (S754_zero false);
    destruct (Prim2SF (lh * fontSize this)) as [s|s| |s m e];
    try discriminate H; try reflexivity; destruct s; reflexivity.
Qed.

Lemma X9_zero_line_count_witness :
  exists height,
    getHeightForLines (demo_helper (measured 40 8)) (Some 0) (Some 1.2)
      (demo_browser "48px" "57.6px" (measured 40 8)) [] = (Return height, [])
    /\ abs height = 0.
Proof.
  destruct (X9_zero_line_count (demo_helper (measured 40 8))
              (demo_browser "48px" "57.6px" (measured 40 8)) [] 1.2)
    as (height & Hcall & Hzero & _).
  exists height. split; [exact Hcall|]. apply Hzero. reflexivity.
Defined.
